(** * The product-lifecycle chaincode

    A shallow embedding of the chaincode that follows the REST handler in
    [Server_Side/blockchain/assets/vehicles/vehicle/owner/CRUD/read.js]:
    the ledger accessors, the identity resolution, the id allocation, the
    two routers ([Invoke], [Query]), [create_product], the transfer and update
    handlers and the two read functions.

    The chaincode is Go written against the Fabric shim.  Every method takes
    the stub and returns a value with an [error]; here a method is a function
    from the stub to an [outcome] and the stub afterwards.  The packages the
    chaincode imports ([encoding/json], [crypto/x509], [encoding/pem],
    [net/url], [net/http], [math/rand]) are an interface, [Platform]. *)

From Stdlib Require Import ZArith Lia Ascii String.
From stdpp Require Import base gmap strings list pretty.

Local Open Scope string_scope.
Local Open Scope Z_scope.

(** ** Results *)

(** What a Go call ends in: the returned value with a nil error, a non-nil
    error (its message), or a run-time panic (an index out of range, a nil
    dereference).  [Spinning] is the id loop of [createRandomId] still
    drawing when the fuel given to it ran out. *)
Inductive outcome (A : Type) : Type :=
  | Ok (a : A)
  | Err (msg : string)
  | Panic
  | Spinning.
Arguments Ok {A} a.
Arguments Err {A} msg.
Arguments Panic {A}.
Arguments Spinning {A}.

(** ** Participant types and statuses *)

Definition GOVERNMENT : Z := 1.
Definition MANUFACTURER : Z := 2.
Definition BUYER : Z := 3.
Definition MANUFACTURER_BANK : Z := 4.
Definition BUYER_BANK : Z := 5.
Definition SHIPPER : Z := 6.
Definition PRODUCT : Z := 7.

Definition STATE_SALESCONTRACT : Z := 0.
Definition STATE_ACCREDITIVE : Z := 1.
Definition STATE_CHECK_ACCREDITIVE : Z := 2.
Definition STATE_MANUFACTURE : Z := 3.
Definition STATE_SHIPPING : Z := 4.
Definition STATE_PAYMENT : Z := 5.
Definition STATE_INUSE : Z := 6.
Definition STATE_SCRAPPED : Z := 7.

(** ** Structures *)

(** A [float32] is kept as its IEEE-754 bit pattern: the chaincode stores and
    prints prices and dimensions and never computes with them. *)
Definition float32 : Type := Z.

(** [Product].  The first fifteen fields are the ones the struct declares.
    The handlers also read and write [Status], [Scrapped], [Make], [Name],
    [Reg], [Colour] and [VIN], and [create_product] reads [V5cID]; the struct
    does not declare them, the record carries them so that the handlers can
    be written as they are. *)
Record Product : Type := mkProduct {
  Product_Id : string;
  CheckId : string;
  Manufacturer : string;
  Owner : string;
  Origin : string;
  Current_location : string;
  Destination : string;
  Route : string;
  State : Z;
  Price : float32;
  Currency : string;
  Width : float32;
  Height : float32;
  Weight : float32;
  Sales_contract : ascii;
  Status : Z;
  Scrapped : bool;
  Make : string;
  Name : string;
  Reg : string;
  Colour : string;
  VIN : Z;
  V5cID : string
}.

Definition set_Owner (v : Product) (x : string) : Product :=
  mkProduct (Product_Id v) (CheckId v) (Manufacturer v) x (Origin v)
    (Current_location v) (Destination v) (Route v) (State v) (Price v)
    (Currency v) (Width v) (Height v) (Weight v) (Sales_contract v)
    (Status v) (Scrapped v) (Make v) (Name v) (Reg v) (Colour v) (VIN v)
    (V5cID v).

Definition set_Status (v : Product) (x : Z) : Product :=
  mkProduct (Product_Id v) (CheckId v) (Manufacturer v) (Owner v) (Origin v)
    (Current_location v) (Destination v) (Route v) (State v) (Price v)
    (Currency v) (Width v) (Height v) (Weight v) (Sales_contract v)
    x (Scrapped v) (Make v) (Name v) (Reg v) (Colour v) (VIN v) (V5cID v).

Definition set_Scrapped (v : Product) (x : bool) : Product :=
  mkProduct (Product_Id v) (CheckId v) (Manufacturer v) (Owner v) (Origin v)
    (Current_location v) (Destination v) (Route v) (State v) (Price v)
    (Currency v) (Width v) (Height v) (Weight v) (Sales_contract v)
    (Status v) x (Make v) (Name v) (Reg v) (Colour v) (VIN v) (V5cID v).

Definition set_Make (v : Product) (x : string) : Product :=
  mkProduct (Product_Id v) (CheckId v) (Manufacturer v) (Owner v) (Origin v)
    (Current_location v) (Destination v) (Route v) (State v) (Price v)
    (Currency v) (Width v) (Height v) (Weight v) (Sales_contract v)
    (Status v) (Scrapped v) x (Name v) (Reg v) (Colour v) (VIN v) (V5cID v).

Definition set_Name (v : Product) (x : string) : Product :=
  mkProduct (Product_Id v) (CheckId v) (Manufacturer v) (Owner v) (Origin v)
    (Current_location v) (Destination v) (Route v) (State v) (Price v)
    (Currency v) (Width v) (Height v) (Weight v) (Sales_contract v)
    (Status v) (Scrapped v) (Make v) x (Reg v) (Colour v) (VIN v) (V5cID v).

Definition set_Reg (v : Product) (x : string) : Product :=
  mkProduct (Product_Id v) (CheckId v) (Manufacturer v) (Owner v) (Origin v)
    (Current_location v) (Destination v) (Route v) (State v) (Price v)
    (Currency v) (Width v) (Height v) (Weight v) (Sales_contract v)
    (Status v) (Scrapped v) (Make v) (Name v) x (Colour v) (VIN v) (V5cID v).

Definition set_Colour (v : Product) (x : string) : Product :=
  mkProduct (Product_Id v) (CheckId v) (Manufacturer v) (Owner v) (Origin v)
    (Current_location v) (Destination v) (Route v) (State v) (Price v)
    (Currency v) (Width v) (Height v) (Weight v) (Sales_contract v)
    (Status v) (Scrapped v) (Make v) (Name v) (Reg v) x (VIN v) (V5cID v).

Record Product_Id_Holder : Type := mkHolder { ProductIds : list Z }.

Record ECertResponse : Type := mkECert { OK : string; Error : string }.

(** ** The imported packages *)

(** [http.Get] followed by [ioutil.ReadAll]: the call fails, the body cannot
    be read, or the body is returned. *)
Inductive http_response : Type :=
  | HttpFailed
  | BodyFailed
  | Body (contents : string).

(** A [\[\]byte] and a [string] are both byte sequences, one type here.
    Every decoder returns [None] for Go's non-nil error.
    [x509_ParseCertificate] gives the subject common name of the parsed
    certificate, the only part the chaincode reads; [pem_Decode] is [None]
    when Go returns a nil block.  [rand_source] is the sequence of numbers
    [math/rand] hands out. *)
Class Platform : Type := {
  json_Marshal_Product : Product → option string;
  json_Unmarshal_Product : string → option Product;
  json_Marshal_Holder : Product_Id_Holder → option string;
  json_Unmarshal_Holder : string → option Product_Id_Holder;
  json_Unmarshal_ECert : string → option ECertResponse;
  url_QueryUnescape : string → option string;
  pem_Decode : string → option string;
  x509_ParseCertificate : string → option string;
  http_Get : string → http_response;
  rand_source : nat → Z;
  strconv_FormatFloat : float32 → string
}.

(** ** The stub *)

(** The ledger and what else a call can observe: which keys the ledger
    refuses to read or to write, the caller's certificate ([None] when
    [GetCallerCertificate] fails), the puts done so far (oldest first) and
    how many numbers have been drawn from [math/rand]. *)
Record ChaincodeStub : Type := mkStub {
  state : gmap string string;
  get_fails : string → bool;
  put_fails : string → bool;
  caller_certificate : option string;
  put_log : list (string * string);
  rand_calls : nat
}.

Definition Chain (A : Type) : Type := ChaincodeStub → outcome A * ChaincodeStub.

Definition ret {A} (a : A) : Chain A := λ stub, (Ok a, stub).
Definition fail {A} (msg : string) : Chain A := λ stub, (Err msg, stub).
Definition panic {A} : Chain A := λ stub, (Panic, stub).

(** [c] then, on a nil error, [k] on its value; on a non-nil error, [h] on
    the message (Go's [if err != nil { ... }]).  A panic unwinds. *)
Definition try {A B} (c : Chain A) (h : string → Chain B) (k : A → Chain B)
    : Chain B :=
  λ stub,
    match c stub with
    | (Ok a, stub') => k a stub'
    | (Err e, stub') => h e stub'
    | (Panic, stub') => (Panic, stub')
    | (Spinning, stub') => (Spinning, stub')
    end.

(** A call whose error the caller does not look at: the value it returned
    with the error is used, [nil] here. *)
Definition unchecked {A} (nil : A) (c : Chain A) : Chain A :=
  λ stub,
    match c stub with
    | (Err _, stub') => (Ok nil, stub')
    | r => r
    end.

Notation "x ← c 'orelse' h ; k" := (try c h (λ x, k))
  (at level 20, c at level 100, h at level 100, k at level 200,
   right associativity, only parsing).

(** [stub.GetState]: a nil slice ([None]) for a key the ledger does not
    hold. *)
Definition GetState (key : string) : Chain (option string) :=
  λ stub,
    if get_fails stub key then (Err "GetState", stub)
    else (Ok (state stub !! key), stub).

(** The stub after a put that went through. *)
Definition with_put (stub : ChaincodeStub) (key value : string)
    : ChaincodeStub :=
  mkStub (<[key := value]> (state stub)) (get_fails stub) (put_fails stub)
    (caller_certificate stub) (put_log stub ++ [(key, value)])
    (rand_calls stub).

Definition PutState (key : string) (value : string) : Chain unit :=
  λ stub,
    if put_fails stub key then (Err "PutState", stub)
    else (Ok tt, with_put stub key value).

Definition GetCallerCertificate : Chain string :=
  λ stub,
    match caller_certificate stub with
    | Some cert => (Ok cert, stub)
    | None => (Err "GetCallerCertificate", stub)
    end.

(** The bytes of a possibly nil slice. *)
Definition bytes_of (b : option string) : string := default "" b.

(** ** [strings] and [strconv] *)

(** [strings.Contains]. *)
Fixpoint Contains (s substr : string) : bool :=
  String.prefix substr s ||
  match s with
  | EmptyString => false
  | String _ s' => Contains s' substr
  end.

(** [strings.Split] on a one-byte separator: the fields between the
    separators, one more than there are separators. *)
Fixpoint Split (s : string) (sep : ascii) : list string :=
  match s with
  | EmptyString => [""]
  | String c s' =>
      if Ascii.eqb c sep then "" :: Split s' sep
      else match Split s' sep with
           | f :: fs => String c f :: fs
           | [] => [String c ""]
           end
  end.

Definition is_digit (c : ascii) : bool :=
  ((48 <=? Z.of_nat (nat_of_ascii c)) && (Z.of_nat (nat_of_ascii c) <=? 57))%Z.

Fixpoint all_digits (s : string) : bool :=
  match s with
  | EmptyString => true
  | String c s' => is_digit c && all_digits s'
  end.

Fixpoint digits_value (acc : Z) (s : string) : Z :=
  match s with
  | EmptyString => acc
  | String c s' => digits_value (10 * acc + (Z.of_nat (nat_of_ascii c) - 48)) s'
  end.

Definition maxInt : Z := 2 ^ 63 - 1.
Definition minInt : Z := - 2 ^ 63.

(** [strconv.Atoi] on a 64-bit [int]: the value and whether the error is
    nil.  A syntax error gives 0; a value out of range gives the nearest
    bound. *)
Definition Atoi (s : string) : Z * bool :=
  let '(neg, ds) :=
    match s with
    | String "-" r => (true, r)
    | String "+" r => (false, r)
    | _ => (false, s)
    end in
  match ds with
  | EmptyString => (0, false)
  | _ =>
      if all_digits ds then
        let n := digits_value 0 ds in
        if neg then (if (2 ^ 63 <? n)%Z then (minInt, false) else (- n, true))
        else (if (maxInt <? n)%Z then (maxInt, false) else (n, true))
      else (0, false)
  end.

(** [strconv.Itoa]. *)
Definition Itoa (n : Z) : string := pretty n.

(** The double quote that the source writes as an escape inside its JSON
    fragments. *)
Definition dq : string := String (ascii_of_nat 34) "".

(** ** The chaincode *)

Section Chaincode.
Context `{Platform}.

(** *** Init *)

(** The error of the first put is overwritten by the second before it is
    looked at. *)
Definition Init (function : string) (args : list string)
    : Chain (option string) :=
  let ProductIds := mkHolder [] in
  match json_Marshal_Holder ProductIds with
  | None => fail "Error creating Product_Id_Holder record"
  | Some bytes =>
      let peer : Chain (option string) :=
        match args !! 0%nat with
        | None => panic
        | Some a =>
            _ ← PutState "Peer_Address" a
              orelse (λ _, fail "Error storing peer address");
            ret None
        end in
      try (PutState "pids" bytes) (λ _, peer) (λ _, peer)
  end.

(** *** General functions *)

Definition get_ecert (name : string) : Chain string :=
  peer_address ← GetState "Peer_Address"
    orelse (λ _, fail "Error retrieving peer address");
  match http_Get ("http://" +:+ bytes_of peer_address +:+ "/registrar/"
                  +:+ name +:+ "/ecert") with
  | HttpFailed => fail "Error calling ecert API"
  | BodyFailed => fail "Could not read body"
  | Body contents =>
      match json_Unmarshal_ECert contents with
      | None => fail ("Could not retrieve ecert for user: " +:+ name)
      | Some cert =>
          if negb (String.eqb (Error cert) "") then fail (Error cert)
          else ret (OK cert)
      end
  end.

Definition get_username : Chain string :=
  bytes ← GetCallerCertificate
    orelse (λ _, fail "Couldn't retrieve caller certificate");
  match x509_ParseCertificate bytes with
  | None => fail "Couldn't parse certificate"
  | Some CommonName => ret CommonName
  end.

(** The block [pem.Decode] returns is dereferenced unchecked, [res] is
    indexed unchecked, and the error of [strconv.Atoi] is dropped. *)
Definition check_affiliation (cert : string) : Chain Z :=
  match url_QueryUnescape cert with
  | None => fail "Could not decode certificate"
  | Some decodedCert =>
      match pem_Decode decodedCert with
      | None => panic
      | Some pem_Bytes =>
          match x509_ParseCertificate pem_Bytes with
          | None => fail "Couldn't parse certificate"
          | Some cn =>
              let res := Split cn "\" in
              match res !! 2%nat with
              | None => panic
              | Some field => let '(affiliation, _) := Atoi field in
                              ret affiliation
              end
          end
      end
  end.

Definition get_caller_data : Chain (string * Z) :=
  user ← get_username orelse (λ err, fail err);
  ecert ← get_ecert user orelse (λ err, fail err);
  affiliation ← check_affiliation ecert orelse (λ err, fail err);
  ret (user, affiliation).

Definition retrieve_product (productId : string) : Chain Product :=
  bytes ← GetState productId
    orelse (λ _, fail ("RETRIEVE_V5C: Error retrieving vehicle with pid = "
                       +:+ productId));
  match json_Unmarshal_Product (bytes_of bytes) with
  | None => fail ("RETRIEVE_PRODUCT: Corrupt product record" +:+ bytes_of bytes)
  | Some product => ret product
  end.

Definition save_changes (product : Product) : Chain bool :=
  match json_Marshal_Product product with
  | None => fail "Error converting vehicle record"
  | Some bytes =>
      _ ← PutState (Product_Id product) bytes
        orelse (λ _, fail "Error storing vehicle record");
      ret true
  end.

(** *** Id allocation *)

(** The identifiers are [int] in the holder and in the allocator and
    [string] as ledger keys and in [Product_Id]; the source passes one for
    the other.  The conversions Go needs there are [Itoa] and the value of
    [Atoi]. *)

(** The body of the [for i, pid := range] of [getAllUsedProductIds].  The
    test [product != nil || product != "[]"] holds of every value. *)
Fixpoint collect_used (i : nat) (pids : list Z) (usedIds : list Z)
    : Chain (list Z) :=
  match pids with
  | [] => ret usedIds
  | pid :: rest =>
      product ← retrieve_product (Itoa pid)
        orelse (λ _, fail "Failed to retrieve pid");
      if decide (i < length usedIds)%nat
      then collect_used (S i) rest (<[i := (Atoi (Product_Id product)).1]> usedIds)
      else panic
  end.

Definition getAllUsedProductIds : Chain (list Z) :=
  let usedIds := replicate 500 0 in
  bytes ← GetState "productId" orelse (λ _, fail "Unable to get productIds");
  match json_Unmarshal_Holder (bytes_of bytes) with
  | None => fail "Invalid JSON"
  | Some productIds => collect_used 0 (ProductIds productIds) usedIds
  end.

Fixpoint id_absent (usedIds : list Z) (randomId : Z) : bool :=
  match usedIds with
  | [] => true
  | id :: rest => if id =? randomId then false else id_absent rest randomId
  end.

(** [usedIds] is assigned the one value the caller takes from
    [getAllUsedProductIds]: the slice, nil where it returned an error. *)
Definition isRandomIdUnused (randomId : Z) : Chain bool :=
  usedIds ← unchecked [] getAllUsedProductIds orelse (λ err, fail err);
  ret (id_absent usedIds randomId).

(** [rand.Intn]. *)
Definition rand_Intn (n : Z) : Chain Z :=
  λ stub,
    if n <=? 0 then (Panic, stub)
    else (Ok (rand_source (rand_calls stub) `mod` n),
          mkStub (state stub) (get_fails stub) (put_fails stub)
            (caller_certificate stub) (put_log stub) (S (rand_calls stub))).

(** The [for] of [createRandomId], at most [fuel] draws. *)
Fixpoint createRandomId (fuel : nat) : Chain Z :=
  let low := 100000000 in
  let high := 999999999 in
  match fuel with
  | O => λ stub, (Spinning, stub)
  | S fuel' =>
      r ← rand_Intn (high - low) orelse (λ err, fail err);
      let randomId := r + low in
      unused ← isRandomIdUnused randomId orelse (λ err, fail err);
      if unused then ret randomId else createRandomId fuel'
  end.

(** *** Create *)

(** The JSON text [create_product] concatenates.  Every value but the state
    is written between quotes: the price, which is formatted from a
    [float32], the width, the height and the weight, which are UNDEFINED,
    and the contract. *)
Definition product_json (productId : Z) (caller1 product_destination : string)
    (product_price : float32) (product_currency : string) (contract : ascii)
    : string :=
  let pid := dq +:+ "productId" +:+ dq +:+ ":" +:+ dq +:+ Itoa productId
             +:+ dq +:+ ", " in
  let checkId := dq +:+ "checksum" +:+ dq +:+ ":" +:+ dq +:+ "UNDEFINED"
                 +:+ dq +:+ ", " in
  let manufacturer := dq +:+ "manufacturer" +:+ dq +:+ ":" +:+ dq
                      +:+ caller1 +:+ dq +:+ ", " in
  let owner := dq +:+ "owner" +:+ dq +:+ ":" +:+ dq +:+ caller1 +:+ dq
               +:+ ", " in
  let origin := dq +:+ "origin" +:+ dq +:+ ":" +:+ dq +:+ "UNDEFINED"
                +:+ dq +:+ ", " in
  let current_location := dq +:+ "current_location" +:+ dq +:+ ":" +:+ dq
                          +:+ "UNDEFINED" +:+ dq +:+ ", " in
  let destination := dq +:+ "destination" +:+ dq +:+ ":" +:+ dq
                     +:+ product_destination +:+ dq +:+ ", " in
  let route := dq +:+ "route" +:+ dq +:+ ":" +:+ dq +:+ "UNDEFINED" +:+ dq
               +:+ ", " in
  let state := dq +:+ "state" +:+ dq +:+ ":0, " in
  let price := dq +:+ "price" +:+ dq +:+ ":" +:+ dq
               +:+ strconv_FormatFloat product_price +:+ dq +:+ "," in
  let currency := dq +:+ "currency" +:+ dq +:+ ":" +:+ dq
                  +:+ product_currency +:+ dq +:+ "," in
  let width := dq +:+ "width" +:+ dq +:+ ":" +:+ dq +:+ "UNDEFINED" +:+ dq
               +:+ "," in
  let height := dq +:+ "height" +:+ dq +:+ ":" +:+ dq +:+ "UNDEFINED"
                +:+ dq +:+ "," in
  let weight := dq +:+ "weight" +:+ dq +:+ ":" +:+ dq +:+ "UNDEFINED"
                +:+ dq +:+ "," in
  let sales_contract := dq +:+ "sales_contract" +:+ dq +:+ ":" +:+ dq
                        +:+ String contract "" +:+ dq in
  "{" +:+ pid +:+ checkId +:+ manufacturer +:+ owner +:+ origin
  +:+ current_location +:+ destination +:+ route +:+ state +:+ price
  +:+ currency +:+ width +:+ height +:+ weight +:+ sales_contract +:+ "}".

(** The body reads [caller_affiliation], which is not among the parameters
    of [create_product]; it is the last parameter here.  The error of the
    [GetState] on [product.V5cID] is not looked at, only the record; a
    failed [json.Marshal] of the holder is printed and the nil slice put. *)
Definition create_product (fuel : nat) (caller1 caller2 : string)
    (caller1_affiliation caller2_affiliation : Z)
    (product_destination : string) (product_price : float32)
    (product_currency : string) (contract : ascii)
    (caller_affiliation : Z) : Chain (option string) :=
  productId ← createRandomId fuel orelse (λ err, fail err);
  if (caller1_affiliation =? 2) && (caller2_affiliation =? 3) then
    match json_Unmarshal_Product
            (product_json productId caller1 product_destination
               product_price product_currency contract) with
    | None => fail "Invalid JSON object"
    | Some product =>
        record ← unchecked None (GetState (V5cID product))
          orelse (λ err, fail err);
        match record with
        | Some _ => fail "Vehicle already exists"
        | None =>
            if negb (caller_affiliation =? GOVERNMENT)
            then fail "Permission Denied"
            else
              _ ← save_changes product
                orelse (λ _, fail "Error saving changes");
              bytes ← GetState "v5cIDs"
                orelse (λ _, fail "Unable to get v5cIDs");
              match json_Unmarshal_Holder (bytes_of bytes) with
              | None => fail "Corrupt V5C_Holder record"
              | Some v5cIDs =>
                  let v5cIDs := mkHolder (ProductIds v5cIDs ++ [productId]) in
                  let bytes := json_Marshal_Holder v5cIDs in
                  _ ← PutState "v5cIDs" (bytes_of bytes)
                    orelse (λ _, fail "Unable to put the state");
                  ret None
              end
        end
    end
  else ret None.

(** *** Transfers *)

Definition manufacturer_to_buyer (v : Product) (caller : string)
    (caller_affiliation : Z) (recipient_name : string)
    (recipient_affiliation : Z) : Chain (option string) :=
  if (Status v =? STATE_SALESCONTRACT) && String.eqb (Owner v) caller
     && (caller_affiliation =? GOVERNMENT)
     && (recipient_affiliation =? MANUFACTURER)
     && Bool.eqb (Scrapped v) false
  then
    let v := set_Owner v recipient_name in
    let v := set_Status v STATE_ACCREDITIVE in
    _ ← save_changes v orelse (λ _, fail "Error saving changes");
    ret None
  else fail "Permission Denied".

Definition manufacturer_to_bank (product : Product) (caller : string)
    (caller_affiliation : Z) (recipient_name : string)
    (recipient_affiliation : Z) : Chain (option string) :=
  if String.eqb (Make product) "UNDEFINED"
     || String.eqb (Name product) "UNDEFINED"
     || String.eqb (Reg product) "UNDEFINED"
     || String.eqb (Colour product) "UNDEFINED"
     || (VIN product =? 0)
  then fail "Car not fully defined"
  else if (Status product =? STATE_ACCREDITIVE)
          && String.eqb (Owner product) caller
          && (caller_affiliation =? MANUFACTURER)
          && (recipient_affiliation =? BUYER)
          && Bool.eqb (Scrapped product) false
  then
    let product := set_Owner product recipient_name in
    let product := set_Status product STATE_CHECK_ACCREDITIVE in
    _ ← save_changes product orelse (λ _, fail "Error saving changes");
    ret None
  else fail "Permission denied".

Definition buyer_to_buyer (v : Product) (caller : string)
    (caller_affiliation : Z) (recipient_name : string)
    (recipient_affiliation : Z) : Chain (option string) :=
  if (Status v =? STATE_CHECK_ACCREDITIVE) && String.eqb (Owner v) caller
     && (caller_affiliation =? BUYER)
     && (recipient_affiliation =? BUYER)
     && Bool.eqb (Scrapped v) false
  then
    let v := set_Owner v recipient_name in
    _ ← save_changes v orelse (λ _, fail "Error saving changes");
    ret None
  else fail "Permission denied".

Definition private_to_lease_company (v : Product) (caller : string)
    (caller_affiliation : Z) (recipient_name : string)
    (recipient_affiliation : Z) : Chain (option string) :=
  if (Status v =? STATE_CHECK_ACCREDITIVE) && String.eqb (Owner v) caller
     && (caller_affiliation =? BUYER)
     && (recipient_affiliation =? MANUFACTURER_BANK)
     && Bool.eqb (Scrapped v) false
  then
    let v := set_Owner v recipient_name in
    _ ← save_changes v orelse (λ _, fail "Error saving changes");
    ret None
  else fail "Permission denied".

Definition lease_company_to_private (v : Product) (caller : string)
    (caller_affiliation : Z) (recipient_name : string)
    (recipient_affiliation : Z) : Chain (option string) :=
  if (Status v =? STATE_CHECK_ACCREDITIVE) && String.eqb (Owner v) caller
     && (caller_affiliation =? MANUFACTURER_BANK)
     && (recipient_affiliation =? BUYER)
     && Bool.eqb (Scrapped v) false
  then
    let v := set_Owner v recipient_name in
    _ ← save_changes v orelse (λ _, fail "Error saving changes");
    ret None
  else fail "Permission denied".

Definition private_to_scrap_merchant (v : Product) (caller : string)
    (caller_affiliation : Z) (recipient_name : string)
    (recipient_affiliation : Z) : Chain (option string) :=
  if (Status v =? STATE_CHECK_ACCREDITIVE) && String.eqb (Owner v) caller
     && (caller_affiliation =? BUYER)
     && (recipient_affiliation =? BUYER_BANK)
     && Bool.eqb (Scrapped v) false
  then
    let v := set_Owner v recipient_name in
    let v := set_Status v STATE_SHIPPING in
    _ ← save_changes v orelse (λ _, fail "Error saving changes");
    ret None
  else fail "Permission denied".

(** *** Updates *)

Definition update_registration (v : Product) (caller : string)
    (caller_affiliation : Z) (new_value : string) : Chain (option string) :=
  if String.eqb (Owner v) caller
     && negb (caller_affiliation =? BUYER_BANK)
     && Bool.eqb (Scrapped v) false
  then
    let v := set_Reg v new_value in
    _ ← save_changes v orelse (λ _, fail "Error saving changes");
    ret None
  else fail "Permission denied".

Definition update_colour (v : Product) (caller : string)
    (caller_affiliation : Z) (new_value : string) : Chain (option string) :=
  if String.eqb (Owner v) caller
     && (caller_affiliation =? MANUFACTURER)
     && Bool.eqb (Scrapped v) false
  then
    let v := set_Colour v new_value in
    _ ← save_changes v orelse (λ _, fail "Error saving changes");
    ret None
  else fail "Permission denied".

Definition update_make (v : Product) (caller : string)
    (caller_affiliation : Z) (new_value : string) : Chain (option string) :=
  if (Status v =? STATE_ACCREDITIVE) && String.eqb (Owner v) caller
     && (caller_affiliation =? MANUFACTURER)
     && Bool.eqb (Scrapped v) false
  then
    let v := set_Make v new_value in
    _ ← save_changes v orelse (λ _, fail "Error saving changes");
    ret None
  else fail "Permission denied".

Definition update_model (v : Product) (caller : string)
    (caller_affiliation : Z) (new_value : string) : Chain (option string) :=
  if (Status v =? STATE_ACCREDITIVE) && String.eqb (Owner v) caller
     && (caller_affiliation =? MANUFACTURER)
     && Bool.eqb (Scrapped v) false
  then
    let v := set_Name v new_value in
    _ ← save_changes v orelse (λ _, fail "Error saving changes");
    ret None
  else fail "Permission denied".

Definition scrap_vehicle (v : Product) (caller : string)
    (caller_affiliation : Z) : Chain (option string) :=
  if (Status v =? STATE_SHIPPING) && String.eqb (Owner v) caller
     && (caller_affiliation =? BUYER_BANK)
     && Bool.eqb (Scrapped v) false
  then
    let v := set_Scrapped v true in
    _ ← save_changes v orelse (λ _, fail "SCRAP_VEHICLError saving changes");
    ret None
  else fail "Permission denied".

(** *** Reads *)

Definition get_vehicle_details (v : Product) (caller : string)
    (caller_affiliation : Z) : Chain (option string) :=
  match json_Marshal_Product v with
  | None => fail "GET_VEHICLE_DETAILS: Invalid vehicle object"
  | Some bytes =>
      if String.eqb (Owner v) caller || (caller_affiliation =? GOVERNMENT)
      then ret (Some bytes)
      else fail "Permission Denied"
  end.

(** The body of the [for _, v5c := range] of [get_vehicles]. *)
Fixpoint collect_details (v5cs : list Z) (caller : string)
    (caller_affiliation : Z) (result : string) : Chain string :=
  match v5cs with
  | [] => ret result
  | v5c :: rest =>
      v ← retrieve_product (Itoa v5c)
        orelse (λ _, fail "Failed to retrieve V5C");
      try (get_vehicle_details v caller caller_affiliation)
        (λ _, collect_details rest caller caller_affiliation result)
        (λ temp, collect_details rest caller caller_affiliation
                   (result +:+ bytes_of temp +:+ ","))
  end.

Definition get_vehicles (caller : string) (caller_affiliation : Z)
    : Chain (option string) :=
  bytes ← GetState "v5cIDs" orelse (λ _, fail "Unable to get v5cIDs");
  match json_Unmarshal_Holder (bytes_of bytes) with
  | None => fail "Corrupt V5C_Holder"
  | Some v5cIDs =>
      result ← collect_details (ProductIds v5cIDs) caller caller_affiliation "["
        orelse (λ err, fail err);
      if (String.length result =? 1)%nat then ret (Some "[]")
      else ret (Some (substring 0 (String.length result - 1) result +:+ "]"))
  end.

(** *** Routers *)

(** [Invoke] binds eight names and an error to the one call of
    [get_caller_data], which returns two values and an error.  The user and
    the affiliation it returns are [caller1] and [caller1_affiliation];
    nothing in the source produces the other six, nor the
    [caller_affiliation] that [create_product] reads: they are the
    [Unbound] argument of [Invoke]. *)
Record Unbound : Type := mkUnbound {
  u_caller2 : string;
  u_caller2_affiliation : Z;
  u_destination : string;
  u_price : float32;
  u_currency : string;
  u_contract : ascii;
  u_caller_affiliation : Z
}.

(** The call of [create_product] passes [args\[0\]] after the nine
    arguments the function takes; evaluating it is all that is kept.  The
    calls of the transfer and update handlers are commented out in the
    source. *)
Definition Invoke (fuel : nat) (u : Unbound) (function : string)
    (args : list string) : Chain (option string) :=
  caller ← get_caller_data
    orelse (λ _, fail "Error retrieving caller information");
  let '(caller1, caller1_affiliation) := caller in
  if String.eqb function "create_product" then
    match args !! 0%nat with
    | None => panic
    | Some _ =>
        create_product fuel caller1 (u_caller2 u) caller1_affiliation
          (u_caller2_affiliation u) (u_destination u) (u_price u)
          (u_currency u) (u_contract u) (u_caller_affiliation u)
    end
  else
    let argPos := if String.eqb function "scrap_vehicle" then 0%nat else 1%nat in
    match args !! argPos with
    | None => panic
    | Some productId =>
        product ← retrieve_product productId
          orelse (λ _, fail "Error retrieving v5c");
        if negb (Contains function "update")
           && negb (String.eqb function "scrap_vehicle")
        then
          match args !! 0%nat with
          | None => panic
          | Some recipient =>
              ecert ← get_ecert recipient orelse (λ err, fail err);
              rec_affiliation ← check_affiliation ecert
                orelse (λ err, fail err);
              fail "Function of that name doesn't exist."
          end
        else fail "Function of that name doesn't exist."
    end.

Definition Query (function : string) (args : list string)
    : Chain (option string) :=
  c ← get_caller_data
    orelse (λ _, fail "QUERY: Error retrieving caller details");
  let '(caller, caller_affiliation) := c in
  if String.eqb function "get_vehicle_details" then
    if negb (length args =? 1)%nat
    then fail "QUERY: Incorrect number of arguments passed"
    else
      match args !! 0%nat with
      | None => panic
      | Some a0 =>
          v ← retrieve_product a0
            orelse (λ err, fail ("QUERY: Error retrieving v5c " +:+ err));
          get_vehicle_details v caller caller_affiliation
      end
  else if String.eqb function "get_vehicles" then
    get_vehicles caller caller_affiliation
  else fail "Received unknown function invocation".
End Chaincode.

(** * The vocabulary of the properties *)

(** A call of one of the eleven handlers, without the product it is made
    on. *)
Inductive operation : Type :=
  | Manufacturer_to_buyer (caller : string) (caller_affiliation : Z)
      (recipient_name : string) (recipient_affiliation : Z)
  | Manufacturer_to_bank (caller : string) (caller_affiliation : Z)
      (recipient_name : string) (recipient_affiliation : Z)
  | Buyer_to_buyer (caller : string) (caller_affiliation : Z)
      (recipient_name : string) (recipient_affiliation : Z)
  | Private_to_lease_company (caller : string) (caller_affiliation : Z)
      (recipient_name : string) (recipient_affiliation : Z)
  | Lease_company_to_private (caller : string) (caller_affiliation : Z)
      (recipient_name : string) (recipient_affiliation : Z)
  | Private_to_scrap_merchant (caller : string) (caller_affiliation : Z)
      (recipient_name : string) (recipient_affiliation : Z)
  | Update_registration (caller : string) (caller_affiliation : Z)
      (new_value : string)
  | Update_colour (caller : string) (caller_affiliation : Z)
      (new_value : string)
  | Update_make (caller : string) (caller_affiliation : Z)
      (new_value : string)
  | Update_model (caller : string) (caller_affiliation : Z)
      (new_value : string)
  | Scrap_vehicle (caller : string) (caller_affiliation : Z).

(** The errors with which a handler answers a test that fails: the two
    spellings of its refusal and, for the first test of
    [manufacturer_to_bank], that the car is not fully defined. *)
Definition PermissionDenied (msg : string) : Prop :=
  msg = "Permission Denied" ∨ msg = "Permission denied"
  ∨ msg = "Car not fully defined".

(** Whom [get_vehicle_details] lets read [v]. *)
Definition permitted (caller : string) (caller_affiliation : Z) (v : Product)
    : Prop :=
  Owner v = caller ∨ caller_affiliation = GOVERNMENT.

#[global] Instance permitted_dec caller caller_affiliation v :
  Decision (permitted caller caller_affiliation v).
Proof. unfold permitted. apply _. Defined.

(** A JSON array of already encoded items. *)
Definition listing (items : list string) : string :=
  "[" +:+ String.concat "," items +:+ "]".

Section Vocabulary.
Context `{Platform}.

Definition run (op : operation) (v : Product) : Chain (option string) :=
  match op with
  | Manufacturer_to_buyer c a rn ra => manufacturer_to_buyer v c a rn ra
  | Manufacturer_to_bank c a rn ra => manufacturer_to_bank v c a rn ra
  | Buyer_to_buyer c a rn ra => buyer_to_buyer v c a rn ra
  | Private_to_lease_company c a rn ra => private_to_lease_company v c a rn ra
  | Lease_company_to_private c a rn ra => lease_company_to_private v c a rn ra
  | Private_to_scrap_merchant c a rn ra => private_to_scrap_merchant v c a rn ra
  | Update_registration c a x => update_registration v c a x
  | Update_colour c a x => update_colour v c a x
  | Update_make c a x => update_make v c a x
  | Update_model c a x => update_model v c a x
  | Scrap_vehicle c a => scrap_vehicle v c a
  end.

(** The operations of a trace, applied one after the other to the record
    under [key], each on the product [retrieve_product] loads. *)
Fixpoint perform (key : string) (ops : list operation) : Chain unit :=
  match ops with
  | [] => ret tt
  | op :: rest =>
      v ← retrieve_product key orelse (λ err, fail err);
      _ ← run op v orelse (λ err, fail err);
      perform key rest
  end.

(** What the loop of [get_vehicles] appends for the products it loads: the
    encodings of those the caller may read. *)
Definition readable (caller : string) (caller_affiliation : Z)
    (vs : list Product) : list string :=
  omap json_Marshal_Product (filter (permitted caller caller_affiliation) vs).

Fixpoint appended (items : list string) : string :=
  match items with
  | [] => ""
  | item :: rest => item +:+ "," +:+ appended rest
  end.

End Vocabulary.

(** Two stubs that differ at most in the number of draws made. *)
Definition same_ledger (stub stub' : ChaincodeStub) : Prop :=
  state stub' = state stub
  ∧ get_fails stub' = get_fails stub
  ∧ put_fails stub' = put_fails stub
  ∧ caller_certificate stub' = caller_certificate stub
  ∧ put_log stub' = put_log stub.

(** The first test of [manufacturer_to_bank]. *)
Definition not_fully_defined (product : Product) : bool :=
  String.eqb (Make product) "UNDEFINED"
  || String.eqb (Name product) "UNDEFINED"
  || String.eqb (Reg product) "UNDEFINED"
  || String.eqb (Colour product) "UNDEFINED"
  || (VIN product =? 0).

(** The operations of the Invoke surface other than the creation, each with
    arguments of the shape the router reads: the product id last, after the
    recipient or the new value where there is one. *)
Definition surface : list (string * list string) :=
  [("manufacturer_to_buyer", ["Toyota"; "123456789"]);
   ("manufacturer_to_bank", ["Toyota"; "123456789"]);
   ("buyer_to_buyer", ["Toyota"; "123456789"]);
   ("private_to_lease_company", ["Toyota"; "123456789"]);
   ("lease_company_to_private", ["Toyota"; "123456789"]);
   ("private_to_scrap_merchant", ["Toyota"; "123456789"]);
   ("update_registration", ["AB12 CDE"; "123456789"]);
   ("update_colour", ["red"; "123456789"]);
   ("update_make", ["Toyota"; "123456789"]);
   ("update_model", ["Yaris"; "123456789"]);
   ("scrap_vehicle", ["123456789"])].

(** The regulator passes product 123456789 to Toyota, which then sets its
    make and its colour. *)
Definition delivery : list operation :=
  [Manufacturer_to_buyer "DVLA" GOVERNMENT "Toyota" MANUFACTURER;
   Update_make "Toyota" MANUFACTURER "Toyota";
   Update_colour "Toyota" MANUFACTURER "red"].

(** ** The handlers, test by test *)

(** Who makes the call. *)
Definition caller_of (op : operation) : string :=
  match op with
  | Manufacturer_to_buyer c _ _ _ | Manufacturer_to_bank c _ _ _
  | Buyer_to_buyer c _ _ _ | Private_to_lease_company c _ _ _
  | Lease_company_to_private c _ _ _ | Private_to_scrap_merchant c _ _ _
  | Update_registration c _ _ | Update_colour c _ _ | Update_make c _ _
  | Update_model c _ _ | Scrap_vehicle c _ => c
  end.

(** The recipient of a transfer. *)
Definition recipient_of (op : operation) : option string :=
  match op with
  | Manufacturer_to_buyer _ _ rn _ | Manufacturer_to_bank _ _ rn _
  | Buyer_to_buyer _ _ rn _ | Private_to_lease_company _ _ rn _
  | Lease_company_to_private _ _ rn _ | Private_to_scrap_merchant _ _ rn _ =>
      Some rn
  | _ => None
  end.

(** The tests a handler makes before it changes the product. *)
Definition accepts (op : operation) (v : Product) : bool :=
  match op with
  | Manufacturer_to_buyer caller caller_affiliation _ recipient_affiliation =>
      (Status v =? STATE_SALESCONTRACT) && String.eqb (Owner v) caller
      && (caller_affiliation =? GOVERNMENT)
      && (recipient_affiliation =? MANUFACTURER)
      && Bool.eqb (Scrapped v) false
  | Manufacturer_to_bank caller caller_affiliation _ recipient_affiliation =>
      negb (not_fully_defined v)
      && ((Status v =? STATE_ACCREDITIVE) && String.eqb (Owner v) caller
          && (caller_affiliation =? MANUFACTURER)
          && (recipient_affiliation =? BUYER)
          && Bool.eqb (Scrapped v) false)
  | Buyer_to_buyer caller caller_affiliation _ recipient_affiliation =>
      (Status v =? STATE_CHECK_ACCREDITIVE) && String.eqb (Owner v) caller
      && (caller_affiliation =? BUYER)
      && (recipient_affiliation =? BUYER)
      && Bool.eqb (Scrapped v) false
  | Private_to_lease_company caller caller_affiliation _
      recipient_affiliation =>
      (Status v =? STATE_CHECK_ACCREDITIVE) && String.eqb (Owner v) caller
      && (caller_affiliation =? BUYER)
      && (recipient_affiliation =? MANUFACTURER_BANK)
      && Bool.eqb (Scrapped v) false
  | Lease_company_to_private caller caller_affiliation _
      recipient_affiliation =>
      (Status v =? STATE_CHECK_ACCREDITIVE) && String.eqb (Owner v) caller
      && (caller_affiliation =? MANUFACTURER_BANK)
      && (recipient_affiliation =? BUYER)
      && Bool.eqb (Scrapped v) false
  | Private_to_scrap_merchant caller caller_affiliation _
      recipient_affiliation =>
      (Status v =? STATE_CHECK_ACCREDITIVE) && String.eqb (Owner v) caller
      && (caller_affiliation =? BUYER)
      && (recipient_affiliation =? BUYER_BANK)
      && Bool.eqb (Scrapped v) false
  | Update_registration caller caller_affiliation _ =>
      String.eqb (Owner v) caller
      && negb (caller_affiliation =? BUYER_BANK)
      && Bool.eqb (Scrapped v) false
  | Update_colour caller caller_affiliation _ =>
      String.eqb (Owner v) caller
      && (caller_affiliation =? MANUFACTURER)
      && Bool.eqb (Scrapped v) false
  | Update_make caller caller_affiliation _
  | Update_model caller caller_affiliation _ =>
      (Status v =? STATE_ACCREDITIVE) && String.eqb (Owner v) caller
      && (caller_affiliation =? MANUFACTURER)
      && Bool.eqb (Scrapped v) false
  | Scrap_vehicle caller caller_affiliation =>
      (Status v =? STATE_SHIPPING) && String.eqb (Owner v) caller
      && (caller_affiliation =? BUYER_BANK)
      && Bool.eqb (Scrapped v) false
  end.

(** The product a handler hands to [save_changes] once the tests passed. *)
Definition effect (op : operation) (v : Product) : Product :=
  match op with
  | Manufacturer_to_buyer _ _ recipient_name _ =>
      set_Status (set_Owner v recipient_name) STATE_ACCREDITIVE
  | Manufacturer_to_bank _ _ recipient_name _ =>
      set_Status (set_Owner v recipient_name) STATE_CHECK_ACCREDITIVE
  | Buyer_to_buyer _ _ recipient_name _
  | Private_to_lease_company _ _ recipient_name _
  | Lease_company_to_private _ _ recipient_name _ =>
      set_Owner v recipient_name
  | Private_to_scrap_merchant _ _ recipient_name _ =>
      set_Status (set_Owner v recipient_name) STATE_SHIPPING
  | Update_registration _ _ new_value => set_Reg v new_value
  | Update_colour _ _ new_value => set_Colour v new_value
  | Update_make _ _ new_value => set_Make v new_value
  | Update_model _ _ new_value => set_Name v new_value
  | Scrap_vehicle _ _ => set_Scrapped v true
  end.

(** The error a handler returns when a test fails. *)
Definition refusal (op : operation) (v : Product) : string :=
  match op with
  | Manufacturer_to_buyer _ _ _ _ => "Permission Denied"
  | Manufacturer_to_bank _ _ _ _ =>
      if not_fully_defined v then "Car not fully defined"
      else "Permission denied"
  | _ => "Permission denied"
  end.

(** The error a handler returns when [save_changes] fails. *)
Definition save_error (op : operation) : string :=
  match op with
  | Scrap_vehicle _ _ => "SCRAP_VEHICLError saving changes"
  | _ => "Error saving changes"
  end.

(** The stub with [n] draws made. *)
Definition with_draws (stub : ChaincodeStub) (n : nat) : ChaincodeStub :=
  mkStub (state stub) (get_fails stub) (put_fails stub)
    (caller_certificate stub) (put_log stub) n.

(** The [j]-th candidate [createRandomId] draws on [stub]. *)
Definition candidate `{Platform} (stub : ChaincodeStub) (j : nat) : Z :=
  rand_source (rand_calls stub + j) `mod` 899999999 + 100000000.

(** ** A platform to run the chaincode on

    A stand-in for the imported packages, for running the chaincode on
    concrete ledgers.  Records are encoded through their [Countable]
    numbering as a tagged string of binary digits, so that decoding inverts
    encoding, and any other text is rejected: so is the text [create_product]
    builds, as it is by encoding/json, which accepts no JSON string for a
    [float32] or a [byte] field.  A certificate is its own common name, and
    the registrar knows four users. *)
Module Fixture.

Fixpoint digits_of_pos (p : positive) : string :=
  match p with
  | xH => ""
  | xO q => String "0" (digits_of_pos q)
  | xI q => String "1" (digits_of_pos q)
  end.

Fixpoint pos_of_digits (s : string) : option positive :=
  match s with
  | EmptyString => Some xH
  | String c r =>
      if Ascii.eqb c "0" then xO <$> pos_of_digits r
      else if Ascii.eqb c "1" then xI <$> pos_of_digits r
      else None
  end.

Definition tuple_of_product (p : Product) :=
  ((((Product_Id p, CheckId p, Manufacturer p),
     (Owner p, Origin p, Current_location p)),
    ((Destination p, Route p, State p),
     (Price p, Currency p, Width p))),
   (((Height p, Weight p, Sales_contract p),
     (Status p, Scrapped p, Make p)),
    ((Name p, Reg p, Colour p),
     (VIN p, V5cID p)))).

Definition product_of_tuple
    (t : (((string * string * string) * (string * string * string))
          * ((string * string * Z) * (float32 * string * float32)))
         * (((float32 * float32 * ascii) * (Z * bool * string))
            * ((string * string * string) * (Z * string)))) : Product :=
  let '((((a1, a2, a3), (a4, a5, a6)), ((a7, a8, a9), (a10, a11, a12))),
        (((a13, a14, a15), (a16, a17, a18)), ((a19, a20, a21), (a22, a23))))
    := t in
  mkProduct a1 a2 a3 a4 a5 a6 a7 a8 a9 a10 a11 a12 a13 a14 a15 a16 a17 a18
    a19 a20 a21 a22 a23.

#[local] Instance Product_eq_dec : EqDecision Product.
Proof. solve_decision. Defined.

#[local] Instance Product_countable : Countable Product.
Proof.
  apply (inj_countable' tuple_of_product product_of_tuple).
  by intros [].
Defined.

Definition encode_product (p : Product) : string :=
  String "P" (digits_of_pos (encode p)).

Definition encode_ids (ids : list Z) : string :=
  String "H" (digits_of_pos (encode ids)).

Definition marshal_product (p : Product) : option string :=
  Some (encode_product p).

Definition marshal_holder (h : Product_Id_Holder) : option string :=
  Some (encode_ids (ProductIds h)).

Definition unmarshal_holder (s : string) : option Product_Id_Holder :=
  match s with
  | String "H" r => p ← pos_of_digits r; mkHolder <$> decode p
  | _ => None
  end.

(** Product 123456789 at its first state, with its manufacturer. *)
Definition created : Product :=
  mkProduct "123456789" "UNDEFINED" "Toyota" "Toyota" "UNDEFINED" "UNDEFINED"
    "Derby" "UNDEFINED" 0 0 "EUR" 0 0 0 "c" 0 false "UNDEFINED" "UNDEFINED"
    "UNDEFINED" "UNDEFINED" 0 "123456789".

Definition format_float (x : float32) : string := Itoa x.

Definition unmarshal_product (s : string) : option Product :=
  match s with
  | String "P" r => p ← pos_of_digits r; decode p
  | _ => None
  end.

(** A body that starts with [!] carries an error message, any other
    non-empty body a certificate. *)
Definition unmarshal_ecert (s : string) : option ECertResponse :=
  match s with
  | EmptyString => None
  | String "!" msg => Some (mkECert "" msg)
  | _ => Some (mkECert s "")
  end.

Definition decode_pem (s : string) : option string :=
  match s with
  | EmptyString => None
  | _ => Some s
  end.

(** A certificate that starts with [?] does not parse. *)
Definition parse_certificate (s : string) : option string :=
  match s with
  | String "?" _ => None
  | _ => Some s
  end.

Definition registrar (url : string) : http_response :=
  if String.eqb url "http://peer/registrar/DVLA/ecert"
  then Body "DVLA\government\1"
  else if String.eqb url "http://peer/registrar/Toyota/ecert"
  then Body "Toyota\manufacturer\2"
  else if String.eqb url "http://peer/registrar/Beechvale/ecert"
  then Body "Beechvale\buyer\3"
  else if String.eqb url "http://peer/registrar/Mallory/ecert"
  then Body "Mallory\buyer\three"
  else HttpFailed.

(** The draws 23456789, 23456790, ...: the first id is 123456789. *)
#[export] Instance platform : Platform := {|
  json_Marshal_Product := marshal_product;
  json_Unmarshal_Product := unmarshal_product;
  json_Marshal_Holder := marshal_holder;
  json_Unmarshal_Holder := unmarshal_holder;
  json_Unmarshal_ECert := unmarshal_ecert;
  url_QueryUnescape := Some;
  pem_Decode := decode_pem;
  x509_ParseCertificate := parse_certificate;
  http_Get := registrar;
  rand_source := λ n, 23456789 + Z.of_nat n;
  strconv_FormatFloat := format_float
|}.

(** A stub whose ledger reads and writes every key. *)
Definition stub_of (ledger : gmap string string) (cert : option string)
    : ChaincodeStub :=
  mkStub ledger (λ _, false) (λ _, false) cert [] 0.

(** Product 123456789 as the regulator holds it before the first
    transfer. *)
Definition registered : Product := set_Owner created "DVLA".

(** The ledger after deployment: the empty holder under [pids] and the peer
    address. *)
Definition deployed : ChaincodeStub :=
  stub_of (<["Peer_Address" := "peer"]> (<["pids" := encode_ids []]> ∅))
    (Some "DVLA").

(** A ledger with product 123456789, held by the regulator and listed under
    [v5cIDs]; the call is made by [user]. *)
Definition stocked (user : string) : ChaincodeStub :=
  stub_of (<["123456789" := encode_product registered]>
             (<["v5cIDs" := encode_ids [123456789]]>
                (<["Peer_Address" := "peer"]>
                   (<["pids" := encode_ids []]> ∅))))
    (Some user).

(** The deployed ledger with an empty holder under [v5cIDs] as well. *)
Definition indexed : ChaincodeStub :=
  stub_of (<["v5cIDs" := encode_ids []]>
             (<["Peer_Address" := "peer"]> (<["pids" := encode_ids []]> ∅)))
    (Some "DVLA").

(** The stocked ledger with a holder under [productId] too, the key the
    allocator reads; [listed] are the ids it lists. *)
Definition allocating (listed : list Z) : ChaincodeStub :=
  stub_of (<["productId" := encode_ids listed]>
             (<["123456789" := encode_product registered]>
                (<["v5cIDs" := encode_ids [123456789]]>
                   (<["Peer_Address" := "peer"]>
                      (<["pids" := encode_ids []]> ∅)))))
    (Some "DVLA").

(** Product 123456790, with Toyota at ACCREDITIVE. *)
Definition accredited : Product :=
  mkProduct "123456790" "UNDEFINED" "Toyota" "Toyota" "UNDEFINED" "UNDEFINED"
    "Derby" "UNDEFINED" 0 0 "EUR" 0 0 0 "c" 1 false "UNDEFINED" "UNDEFINED"
    "UNDEFINED" "UNDEFINED" 0 "123456790".

(** A ledger with the two products, both listed under [v5cIDs]. *)
Definition fleet (user : string) : ChaincodeStub :=
  stub_of (<["123456790" := encode_product accredited]>
             (<["123456789" := encode_product registered]>
                (<["v5cIDs" := encode_ids [123456789; 123456790]]>
                   (<["Peer_Address" := "peer"]> ∅))))
    (Some user).

(** The same without the record of product 123456790, which the holder
    still lists. *)
Definition dangling (user : string) : ChaincodeStub :=
  stub_of (<["123456789" := encode_product registered]>
             (<["v5cIDs" := encode_ids [123456789; 123456790]]>
                (<["Peer_Address" := "peer"]> ∅)))
    (Some user).

Definition unbound : Unbound := mkUnbound "Beechvale" 3 "Derby" 0 "EUR" "c" 1.

(** Product 123456791, with the scrap merchant at SHIPPING. *)
Definition shipped : Product :=
  mkProduct "123456791" "UNDEFINED" "Toyota" "Cray Bros" "UNDEFINED"
    "UNDEFINED" "Derby" "UNDEFINED" 0 0 "EUR" 0 0 0 "c" 4 false "Toyota"
    "Yaris" "AB12 CDE" "red" 7 "123456791".

Definition yard (user : string) : ChaincodeStub :=
  stub_of (<["123456791" := encode_product shipped]>
             (<["Peer_Address" := "peer"]> ∅))
    (Some user).

(** An empty ledger that refuses a put under [pids]. *)
Definition refusing_pids : ChaincodeStub :=
  mkStub ∅ (λ _, false) (λ key, String.eqb key "pids") (Some "DVLA") [] 0.

End Fixture.

(** * The REST handlers

    [owner/CRUD/read.js] and [reg/CRUD/read.js] answer
    [GET .../vehicle/:v5cID/owner] and [.../reg]: each posts a
    [get_vehicle_details] query to the peer and shapes the reply.  The posting
    is the pair of what [read] leaves in the session and the options it hands
    to [request]; the function it hands over with them is [callback]. *)

Module Rest.

(** A JavaScript value; the first binding of a key in [fields] is the
    property. *)
#[local] Unset Elimination Schemes.
Inductive value : Type :=
  | Undefined
  | Null
  | Bool (b : bool)
  | Num (n : Z)
  | Str (s : string)
  | Arr (items : list value)
  | Obj (fields : list (string * value)).
#[local] Set Elimination Schemes.

(** How an expression completes. *)
Inductive completion (A : Type) : Type :=
  | Normal (a : A)
  | Throw (exception : string).
Arguments Normal {A} a.
Arguments Throw {A} exception.

Fixpoint property (fields : list (string * value)) (key : string) : value :=
  match fields with
  | [] => Undefined
  | (k, x) :: rest => if String.eqb k key then x else property rest key
  end.

Fixpoint own (fields : list (string * value)) (key : string) : bool :=
  match fields with
  | [] => false
  | (k, _) :: rest => String.eqb k key || own rest key
  end.

(** [v.key], for the keys the handlers read ([result], [message], [owner],
    [reg]): a TypeError on undefined and null, undefined on the other values
    that are not objects. *)
Definition get (v : value) (key : string) : completion value :=
  match v with
  | Undefined | Null => Throw "TypeError"
  | Obj fields => Normal (property fields key)
  | _ => Normal Undefined
  end.

(** [v.hasOwnProperty(key)], for the key [error].  A property
    [hasOwnProperty] of the object's own hides the method of the prototype,
    and no value here is a function: the call is then a TypeError. *)
Definition hasOwnProperty (v : value) (key : string) : completion bool :=
  match v with
  | Undefined | Null => Throw "TypeError"
  | Obj fields =>
      if own fields "hasOwnProperty" then Throw "TypeError"
      else Normal (own fields key)
  | _ => Normal false
  end.

(** [!v] is [negb (truthy v)]. *)
Definition truthy (v : value) : bool :=
  match v with
  | Undefined | Null | Bool false | Num 0 | Str "" => false
  | _ => true
  end.

(** The request as [read] sees it: the route parameter, the user of the
    cookie and the user of the session. *)
Record request : Type := mkRequest {
  params_v5cID : string;
  cookies_user : value;
  session_user : value
}.

(** The three settings [read] takes from the reloaded configuration. *)
Record configuration : Type := mkConfiguration {
  vehicle_name : value;
  api_ip : string;
  api_port_external : string
}.

(** What [res] has been told. *)
Record sent : Type := mkSent { status : Z; payload : value }.

(** The part of [read] before [request] that both files share: the session
    after it, and the options. *)
Definition post (req : request) (config : configuration) : request * value :=
  let v5cID := params_v5cID req in
  let req :=
    match cookies_user req with
    | Undefined => req
    | user => mkRequest (params_v5cID req) (cookies_user req) user
    end in
  let querySpec :=
    Obj [("jsonrpc", Str "2.0");
         ("method", Str "query");
         ("params",
          Obj [("type", Num 1);
               ("chaincodeID", Obj [("name", vehicle_name config)]);
               ("ctorMsg",
                Obj [("function", Str "get_vehicle_details");
                     ("args", Arr [Str v5cID])]);
               ("secureContext", session_user req)]);
         ("id", Num 123)] in
  let options :=
    Obj [("url", Str (api_ip config +:+ ":" +:+ api_port_external config
                      +:+ "/chaincode"));
         ("method", Str "POST");
         ("body", querySpec);
         ("json", Bool true)] in
  (req, options).

(** The answer of both handlers when the read failed. *)
Definition unable (message v5cID : string) : sent :=
  mkSent 400
    (Obj [("message", Str message); ("v5cID", Str v5cID);
          ("error", Bool true)]).

Section Handlers.
(** [JSON.parse]. *)
Variable JSON_parse : value → completion value.

(** The answer of both handlers when the read went through: the field
    [field] of the vehicle in [body.result.message]. *)
Definition answer (body : value) (field : string) : completion sent :=
  match get body "result" with
  | Throw e => Throw e
  | Normal result =>
      match get result "message" with
      | Throw e => Throw e
      | Normal message =>
          match JSON_parse message with
          | Throw e => Throw e
          | Normal vehicle =>
              match get vehicle field with
              | Throw e => Throw e
              | Normal x => Normal (mkSent 200 (Obj [("message", x)]))
              end
          end
      end
  end.

End Handlers.

(** [owner/CRUD/read.js].  [read] also stores the user in the variable
    [user_id] of the module, the third component here. *)
Module Owner.

Definition read (req : request) (config : configuration)
    : request * value * value :=
  let '(req, options) := post req config in
  (req, options, session_user req).

(** [response] is the status code of the response, [None] where [request]
    passes none. *)
Definition callback (JSON_parse : value → completion value) (v5cID : string)
    (error : value) (response : option Z) (body : value) : completion sent :=
  match hasOwnProperty body "error" with
  | Throw e => Throw e
  | Normal has_error =>
      if negb has_error then
        match response with
        | None => Throw "TypeError"
        | Some statusCode =>
            if statusCode =? 200 then answer JSON_parse body "owner"
            else Normal (unable "Unable to read owner." v5cID)
        end
      else Normal (unable "Unable to read owner." v5cID)
  end.

End Owner.

(** [reg/CRUD/read.js]. *)
Module Reg.

Definition read (req : request) (config : configuration) : request * value :=
  post req config.

Definition callback (JSON_parse : value → completion value) (v5cID : string)
    (error : value) (response : option Z) (body : value) : completion sent :=
  if negb (truthy error) then
    match response with
    | None => Throw "TypeError"
    | Some statusCode =>
        if statusCode =? 200 then answer JSON_parse body "reg"
        else Normal (unable "Unable to read reg" v5cID)
    end
  else Normal (unable "Unable to read reg" v5cID).

End Reg.

(** The user in whose name the options post. *)
Definition secureContext (options : value) : completion value :=
  match get options "body" with
  | Normal body =>
      match get body "params" with
      | Normal params => get params "secureContext"
      | Throw e => Throw e
      end
  | Throw e => Throw e
  end.

(** The call the options post. *)
Definition ctorMsg (options : value) : completion value :=
  match get options "body" with
  | Normal body =>
      match get body "params" with
      | Normal params => get params "ctorMsg"
      | Throw e => Throw e
      end
  | Throw e => Throw e
  end.

(** A stand-in for [JSON.parse], which knows one text. *)
Definition parse_vehicle (v : value) : completion value :=
  match v with
  | Str "vehicle" => Normal (Obj [("owner", Str "DVLA"); ("reg", Str "AB12 CDE")])
  | _ => Throw "SyntaxError"
  end.

End Rest.

(** * Properties *)

(** ** The stand-in platform *)

Lemma pos_of_digits_of_pos p :
  Fixture.pos_of_digits (Fixture.digits_of_pos p) = Some p.
Proof. induction p as [q IH|q IH|]; simpl; by rewrite ?IH. Qed.

(** Its decoder inverts its encoder. *)
Lemma unmarshal_marshal_product p b :
  Fixture.marshal_product p = Some b → Fixture.unmarshal_product b = Some p.
Proof.
  intros [= <-]. simpl. rewrite pos_of_digits_of_pos. simpl.
  apply (@decode_encode _ _ Fixture.Product_countable).
Qed.

(** ** Read-only methods leave the stub as it is *)

Section ReadOnly.
Context `{Platform}.

Ltac run_chain :=
  unfold try, unchecked, ret, fail, panic, GetState, GetCallerCertificate;
  repeat (simpl; case_match; simplify_eq); simpl; try done.

Lemma GetState_stub key stub : (GetState key stub).2 = stub.
Proof. run_chain. Qed.

Lemma get_ecert_stub name stub : (get_ecert name stub).2 = stub.
Proof. unfold get_ecert. run_chain. Qed.

Lemma get_username_stub stub : (get_username stub).2 = stub.
Proof. unfold get_username. run_chain. Qed.

Lemma check_affiliation_stub cert stub : (check_affiliation cert stub).2 = stub.
Proof. unfold check_affiliation. run_chain. Qed.

Lemma get_caller_data_stub stub : (get_caller_data stub).2 = stub.
Proof.
  unfold get_caller_data, try.
  pose proof (get_username_stub stub) as Hu.
  destruct (get_username stub) as [[user| | |] s1]; simpl in *; subst; try done.
  pose proof (get_ecert_stub user stub) as He.
  destruct (get_ecert user stub) as [[ecert| | |] s2]; simpl in *; subst; try done.
  pose proof (check_affiliation_stub ecert stub) as Hc.
  destruct (check_affiliation ecert stub) as [[a| | |] s3]; simpl in *; subst; done.
Qed.

Lemma retrieve_product_stub productId stub :
  (retrieve_product productId stub).2 = stub.
Proof. unfold retrieve_product. run_chain. Qed.

(** [retrieve_product] returns a product or an error, nothing else. *)
Lemma retrieve_product_cases productId stub :
  (∃ product, retrieve_product productId stub = (Ok product, stub))
  ∨ (∃ err, retrieve_product productId stub = (Err err, stub)).
Proof.
  unfold retrieve_product, try, GetState, fail, ret.
  destruct (get_fails stub productId); [right; eauto|].
  destruct (json_Unmarshal_Product _); [left|right]; eauto.
Qed.

Lemma get_vehicle_details_stub v caller caller_affiliation stub :
  (get_vehicle_details v caller caller_affiliation stub).2 = stub.
Proof. unfold get_vehicle_details. run_chain. Qed.
End ReadOnly.

(** ** The transition handlers *)

Section Handlers.
Context `{Platform}.

Lemma save_changes_cases product stub :
  (∃ err, save_changes product stub = (Err err, stub))
  ∨ (∃ bytes, json_Marshal_Product product = Some bytes
       ∧ put_fails stub (Product_Id product) = false
       ∧ save_changes product stub
         = (Ok true, with_put stub (Product_Id product) bytes)).
Proof.
  unfold save_changes, try, PutState, fail, ret.
  destruct (json_Marshal_Product product) as [bytes|]; [|left; eauto].
  destruct (put_fails stub (Product_Id product)) eqn:Hput; [left; eauto|].
  right. eauto.
Qed.

(** What the tail of every handler does with the product it has updated. *)
Lemma save_and_return msg v' stub :
  let tail : Chain (option string) :=
    _ ← save_changes v' orelse (λ _, fail msg); ret None in
  (∃ err, tail stub = (Err err, stub))
  ∨ (∃ bytes, json_Marshal_Product v' = Some bytes
       ∧ put_fails stub (Product_Id v') = false
       ∧ tail stub = (Ok None, with_put stub (Product_Id v') bytes)).
Proof.
  simpl. unfold try.
  destruct (save_changes_cases v' stub) as [[err ->]|(bytes & Hm & Hp & ->)].
  - left. by exists msg.
  - right. by exists bytes.
Qed.

(** A handler either refuses and leaves the stub alone, or puts one record:
    the encoding of a product with the same id, not scrapped before, whose
    [Status] has not gone down and whose [State] is the same. *)
Lemma run_cases op v stub :
  (∃ err, run op v stub = (Err err, stub))
  ∨ (∃ v' bytes,
       run op v stub = (Ok None, with_put stub (Product_Id v) bytes)
       ∧ json_Marshal_Product v' = Some bytes
       ∧ put_fails stub (Product_Id v) = false
       ∧ Product_Id v' = Product_Id v
       ∧ Scrapped v = false
       ∧ Status v ≤ Status v'
       ∧ State v' = State v).
Proof.
  destruct op; simpl;
    unfold manufacturer_to_buyer, manufacturer_to_bank, buyer_to_buyer,
      private_to_lease_company, lease_company_to_private,
      private_to_scrap_merchant, update_registration, update_colour,
      update_make, update_model, scrap_vehicle;
    repeat match goal with
      | |- context [if ?b then _ else _] =>
          let Hb := fresh "Hb" in
          destruct b eqn:Hb; [|try (left; unfold fail; eauto; fail)]
      end;
    try (left; unfold fail; eauto; fail);
    match goal with
    | |- context [try (save_changes ?w) (λ _, fail ?m)] =>
        destruct (save_and_return m w stub)
          as [[err Herr]|(bytes & Hm & Hp & Hrun)]
    end;
    try (left; eexists; exact Herr);
    right; eexists _, bytes; simpl in *;
    (split; [exact Hrun|]); (split; [exact Hm|]); (split; [exact Hp|]);
    (split; [reflexivity|]);
    repeat match goal with
      | Hb : _ && _ = true |- _ => apply andb_true_iff in Hb as [? ?]
      | Hb : _ || _ = false |- _ => apply orb_false_iff in Hb as [? ?]
      | Hb : Bool.eqb _ _ = true |- _ => apply Bool.eqb_prop in Hb
      | Hb : (_ =? _) = true |- _ => apply Z.eqb_eq in Hb
      end;
    unfold STATE_SALESCONTRACT, STATE_ACCREDITIVE, STATE_CHECK_ACCREDITIVE,
      STATE_SHIPPING in *;
    repeat split; simpl; try done; lia.
Qed.
End Handlers.

Section Tests.
Context `{Platform}.

(** A handler is its tests, then [save_changes] on the changed product. *)
Lemma run_accepts op v stub :
  run op v stub
  = if accepts op v
    then match save_changes (effect op v) stub with
         | (Ok _, stub') => (Ok None, stub')
         | (Err _, stub') => (Err (save_error op), stub')
         | (Panic, stub') => (Panic, stub')
         | (Spinning, stub') => (Spinning, stub')
         end
    else (Err (refusal op v), stub).
Proof.
  destruct op; simpl;
    unfold manufacturer_to_buyer, manufacturer_to_bank, buyer_to_buyer,
      private_to_lease_company, lease_company_to_private,
      private_to_scrap_merchant, update_registration, update_colour,
      update_make, update_model, scrap_vehicle, not_fully_defined;
    repeat match goal with
      | |- context [if ?b then _ else _] => destruct b; simpl
      end;
    try reflexivity;
    unfold try; by destruct (save_changes _ stub) as [[| | |] ?].
Qed.

Lemma Product_Id_effect op v : Product_Id (effect op v) = Product_Id v.
Proof. by destruct op. Qed.

(** What a handler that returned without an error has done. *)
Lemma run_Ok op v stub r stub' :
  run op v stub = (Ok r, stub') →
  accepts op v = true ∧ r = None
  ∧ ∃ bytes, json_Marshal_Product (effect op v) = Some bytes
      ∧ put_fails stub (Product_Id v) = false
      ∧ stub' = with_put stub (Product_Id v) bytes.
Proof.
  rewrite run_accepts. destruct (accepts op v); [|discriminate].
  destruct (save_changes_cases (effect op v) stub)
    as [[err ->]|(bytes & Hm & Hp & ->)]; [discriminate|].
  intros [= <- <-]. rewrite Product_Id_effect in *. eauto 6.
Qed.
End Tests.


(** ** The mutating router *)

Section Router.
Context `{Platform}.

(** Whatever the name, a call that is not a creation ends in an error or a
    panic and leaves the stub alone: no handler is called. *)
Lemma Invoke_calls_no_handler fuel u function args stub :
  function ≠ "create_product" →
  (Invoke fuel u function args stub).2 = stub
  ∧ ∀ bytes, (Invoke fuel u function args stub).1 ≠ Ok bytes.
Proof.
  intros Hf. unfold Invoke, try.
  pose proof (get_caller_data_stub stub) as Hc.
  destruct (get_caller_data stub) as [[[caller1 aff]| | |] s1];
    simpl in *; subst; try done.
  destruct (String.eqb_spec function "create_product") as [|_]; [done|].
  destruct (args !! _) as [productId|]; [|done].
  pose proof (retrieve_product_stub productId stub) as Hr.
  destruct (retrieve_product productId stub) as [[product| | |] s2];
    simpl in *; subst; try done.
  destruct (_ && _); [|done].
  destruct (args !! 0%nat) as [recipient|]; [|done].
  pose proof (get_ecert_stub recipient stub) as He.
  destruct (get_ecert recipient stub) as [[ecert| | |] s3];
    simpl in *; subst; try done.
  pose proof (check_affiliation_stub ecert stub) as Ha.
  destruct (check_affiliation ecert stub) as [[a| | |] s4];
    simpl in *; subst; done.
Qed.
End Router.

Section RouterOnFixture.
Local Existing Instance Fixture.platform.

(** [Init] leaves the ledger of [Fixture.deployed], by two puts. *)
Example Init_deploys :
  let done := Init "init" ["peer"] (Fixture.stub_of ∅ (Some "DVLA")) in
  done.1 = Ok None
  ∧ state done.2 = state Fixture.deployed
  ∧ put_log done.2 = [("pids", Fixture.encode_ids []);
                      ("Peer_Address", "peer")].
Proof. repeat split; by vm_compute. Qed.

(** C1, at the failing input.  On a ledger that holds product 123456789,
    owned by the regulator DVLA at status SALES_CONTRACT, the regulator's
    [Invoke] of [manufacturer_to_buyer] towards the manufacturer Toyota, and
    of every other listed operation but the creation, returns
    "Function of that name doesn't exist." and leaves the stub alone; the
    handler [manufacturer_to_buyer], called on the same product with the same
    caller and recipient, accepts the transfer. *)
Theorem Invoke_listed_operations_unknown :
  Forall (λ call,
            Invoke 1 Fixture.unbound call.1 call.2 (Fixture.stocked "DVLA")
            = (Err "Function of that name doesn't exist.",
               Fixture.stocked "DVLA"))
         surface
  ∧ (manufacturer_to_buyer Fixture.registered "DVLA" GOVERNMENT "Toyota"
       MANUFACTURER (Fixture.stocked "DVLA")).1 = Ok None.
Proof.
  split; [|by vm_compute].
  unfold surface. repeat constructor; by vm_compute.
Qed.
End RouterOnFixture.

(** ** Id allocation and creation *)

Section Allocation.
Context `{Platform}.

Lemma collect_used_stub pids i usedIds stub :
  (collect_used i pids usedIds stub).2 = stub.
Proof.
  revert i usedIds. induction pids as [|pid rest IH]; intros i usedIds; [done|].
  simpl. unfold try.
  pose proof (retrieve_product_stub (Itoa pid) stub) as Hr.
  destruct (retrieve_product (Itoa pid) stub) as [[product| | |] s1];
    simpl in *; subst; try done.
  case_decide; [apply IH|done].
Qed.

Lemma getAllUsedProductIds_stub stub : (getAllUsedProductIds stub).2 = stub.
Proof.
  unfold getAllUsedProductIds, try, GetState, fail.
  destruct (get_fails stub "productId"); [done|].
  destruct (json_Unmarshal_Holder _); [apply collect_used_stub|done].
Qed.

Lemma isRandomIdUnused_stub randomId stub :
  (isRandomIdUnused randomId stub).2 = stub.
Proof.
  unfold isRandomIdUnused, try, unchecked.
  pose proof (getAllUsedProductIds_stub stub) as Hg.
  destruct (getAllUsedProductIds stub) as [[ids| | |] s1];
    simpl in *; subst; done.
Qed.

Lemma createRandomId_same_ledger fuel stub :
  same_ledger stub (createRandomId fuel stub).2.
Proof.
  revert stub. induction fuel as [|fuel IH]; intros stub; [done|].
  simpl. unfold try at 1. unfold rand_Intn. simpl.
  set (stub1 := mkStub _ _ _ _ _ _).
  unfold try.
  pose proof (isRandomIdUnused_stub
                (rand_source (rand_calls stub) `mod` 899999999 + 100000000)
                stub1) as Hu.
  destruct (isRandomIdUnused _ stub1) as [[[|]| | |] s1];
    simpl in *; subst; try done.
  destruct (IH stub1) as (? & ? & ? & ? & ?). by repeat split.
Qed.

(** C2, amended.  When the affiliation [create_product] compares with
    GOVERNMENT is another one, the call puts nothing on the ledger, and it is
    not always refused: once the id is drawn, it returns without an error
    when the seller is not a MANUFACTURER or the buyer not a BUYER, and
    otherwise it fails, with "Invalid JSON object" when the text it has built
    does not decode, with "Vehicle already exists" when the decoded product
    has a record under its id, and with "Permission Denied" in the case that
    is left. *)
Theorem create_product_not_government fuel caller1 caller2
    caller1_affiliation caller2_affiliation product_destination product_price
    product_currency contract caller_affiliation stub :
  caller_affiliation ≠ GOVERNMENT →
  let done :=
    create_product fuel caller1 caller2 caller1_affiliation
      caller2_affiliation product_destination product_price product_currency
      contract caller_affiliation stub in
  state done.2 = state stub
  ∧ put_log done.2 = put_log stub
  ∧ ∀ productId stub1,
      createRandomId fuel stub = (Ok productId, stub1) →
      done.1 =
        if (caller1_affiliation =? MANUFACTURER)
           && (caller2_affiliation =? BUYER)
        then
          match json_Unmarshal_Product
                  (product_json productId caller1 product_destination
                     product_price product_currency contract) with
          | None => Err "Invalid JSON object"
          | Some product =>
              if get_fails stub (V5cID product) then Err "Permission Denied"
              else match state stub !! V5cID product with
                   | Some _ => Err "Vehicle already exists"
                   | None => Err "Permission Denied"
                   end
          end
        else Ok None.
Proof.
  intros Hgov done. subst done.
  destruct (create_product _ _ _ _ _ _ _ _ _ _ _) as [r stub'] eqn:Hrun.
  simpl. unfold create_product in Hrun. unfold try at 1 in Hrun.
  pose proof (createRandomId_same_ledger fuel stub) as Hsame.
  destruct (createRandomId fuel stub) as [[productId| | |] s1];
    simpl in Hsame; destruct Hsame as (Hst & Hgf & Hpf & Hcc & Hpl);
    try (unfold fail in Hrun; simplify_eq; by repeat split).
  assert ((caller_affiliation =? GOVERNMENT) = false) as Hneq
    by by apply Z.eqb_neq.
  unfold MANUFACTURER, BUYER.
  destruct (_ && _) eqn:Hgate; [|unfold ret in Hrun; simplify_eq].
  - destruct (json_Unmarshal_Product _) as [product|] eqn:Hjson;
      [|unfold fail in Hrun; simplify_eq].
    + unfold try, unchecked, GetState in Hrun. rewrite Hneq in Hrun.
      simpl in Hrun. rewrite Hgf, Hst in Hrun.
      destruct (get_fails stub (V5cID product)) eqn:Hget;
        [unfold fail in Hrun; simplify_eq; repeat split; try done;
         intros ? ? [= <- <-]; by rewrite Hjson, Hget|].
      destruct (state stub !! V5cID product) as [record|] eqn:Hrec;
        unfold fail in Hrun; simpl in Hrun; simplify_eq;
        repeat split; try done;
        intros ? ? [= <- <-]; by rewrite Hjson, Hget, Hrec.
    + repeat split; try done.
      intros ? ? [= <- <-]. by rewrite Hjson.
  - by repeat split.
Qed.

(** The text [create_product] builds gives the price, the width, the height
    and the weight, which are [float32] fields, and the contract, a [byte],
    as JSON strings, and encoding/json decodes a JSON string into none of
    them.  Where it rejects that text, whatever id is drawn, the creation
    stops there. *)
Section Rejected.
Variables (caller1 product_destination : string) (product_price : float32)
  (product_currency : string) (contract : ascii).
Hypothesis text_rejected : ∀ productId,
  json_Unmarshal_Product
    (product_json productId caller1 product_destination product_price
       product_currency contract) = None.

Lemma create_product_rejected fuel caller2 caller1_affiliation
    caller2_affiliation caller_affiliation stub :
  create_product fuel caller1 caller2 caller1_affiliation caller2_affiliation
    product_destination product_price product_currency contract
    caller_affiliation stub
  = match createRandomId fuel stub with
    | (Ok _, stub1) =>
        (if (caller1_affiliation =? MANUFACTURER)
            && (caller2_affiliation =? BUYER)
         then Err "Invalid JSON object" else Ok None, stub1)
    | (Err err, stub1) => (Err err, stub1)
    | (Panic, stub1) => (Panic, stub1)
    | (Spinning, stub1) => (Spinning, stub1)
    end.
Proof.
  unfold create_product, try at 1.
  destruct (createRandomId fuel stub) as [[productId| | |] s1]; try done.
  rewrite text_rejected. unfold MANUFACTURER, BUYER.
  by destruct (_ && _).
Qed.

End Rejected.
End Allocation.

Section AllocationOnFixture.
Local Existing Instance Fixture.platform.

(** The stand-in decoder rejects the text of every creation. *)
Lemma creation_text_rejected productId caller1 product_destination
    product_price product_currency contract :
  json_Unmarshal_Product
    (product_json productId caller1 product_destination product_price
       product_currency contract) = None.
Proof. reflexivity. Qed.

Lemma create_product_not_government_witness :
  let done :=
    create_product 1 "Toyota" "Beechvale" MANUFACTURER BUYER "Derby" 0 "EUR"
      "c" BUYER Fixture.deployed in
  state done.2 = state Fixture.deployed
  ∧ put_log done.2 = put_log Fixture.deployed
  ∧ done.1 = Err "Invalid JSON object".
Proof.
  assert (BUYER ≠ GOVERNMENT) as Hne by discriminate.
  destruct (create_product_not_government 1 "Toyota" "Beechvale" MANUFACTURER
              BUYER "Derby" 0 "EUR" "c" BUYER Fixture.deployed Hne)
    as (Hstate & Hlog & Hanswer).
  split; [exact Hstate|]. split; [exact Hlog|].
  apply (Hanswer 123456789 (with_draws Fixture.deployed 1)).
  vm_compute. reflexivity.
Defined.

(** C2, as stated, fails.  A BUYER who calls [create_product] with a buyer
    that is a BUYER too is not refused: the call returns without an error
    (and without creating anything). *)
Lemma create_product_buyer_not_refused :
  BUYER ≠ GOVERNMENT
  ∧ (create_product 1 "Beechvale" "Mallory" BUYER BUYER "Derby" 0 "EUR" "c"
       BUYER Fixture.deployed).1 = Ok None.
Proof. split; [discriminate|by vm_compute]. Qed.
End AllocationOnFixture.

(** ** Scrapped products and the order of statuses *)

Section Lifecycle.
Context `{Platform}.

(** C3.  On a scrapped product every handler, whoever calls it and with
    whatever arguments, fails with a PermissionDenied error, the answer to a
    test that failed, and leaves the stub, the ledger with it, as it was: no
    operation succeeds after a scrap. *)
Theorem scrapped_is_final op v stub :
  Scrapped v = true →
  ∃ err, run op v stub = (Err err, stub) ∧ PermissionDenied err.
Proof.
  intros Hs. unfold PermissionDenied.
  destruct op; simpl;
    unfold manufacturer_to_buyer, manufacturer_to_bank, buyer_to_buyer,
      private_to_lease_company, lease_company_to_private,
      private_to_scrap_merchant, update_registration, update_colour,
      update_make, update_model, scrap_vehicle;
    rewrite Hs; simpl; rewrite ?andb_false_r;
    try (eexists; split; [reflexivity|]; auto; fail).
  destruct (_ || _); eexists; (split; [reflexivity|]); auto.
Qed.

Lemma retrieve_product_Ok key v stub :
  retrieve_product key stub = (Ok v, stub) ↔
  get_fails stub key = false
  ∧ json_Unmarshal_Product (bytes_of (state stub !! key)) = Some v.
Proof.
  unfold retrieve_product, try, GetState, fail, ret.
  destruct (get_fails stub key).
  { split; [discriminate|]. by intros [? _]. }
  destruct (json_Unmarshal_Product _) as [p|].
  - split; [by intros [= ->]|]. by intros [_ [= ->]].
  - split; [discriminate|]. by intros [_ ?].
Qed.

Section Decoding.
(** Decoding inverts encoding. *)
Hypothesis Unmarshal_Marshal : ∀ p bytes,
  json_Marshal_Product p = Some bytes → json_Unmarshal_Product bytes = Some p.

Lemma retrieve_after_put key v k v' bytes stub :
  retrieve_product key stub = (Ok v, stub) →
  json_Marshal_Product v' = Some bytes →
  retrieve_product key (with_put stub k bytes)
  = (Ok (if decide (k = key) then v' else v), with_put stub k bytes).
Proof.
  intros [Hg Hu]%retrieve_product_Ok Hm. apply retrieve_product_Ok.
  split; [done|]. simpl. case_decide as Hk.
  - subst. rewrite lookup_insert_eq. simpl. by apply Unmarshal_Marshal.
  - by rewrite lookup_insert_ne.
Qed.

(** C4.  Along every trace of handler calls that all succeed, made on the
    record under one key, the [Status] read back at the end is not below the
    one read at the start, in the order 0 (SALES_CONTRACT) to 7 (SCRAPPED);
    the declared [State] field is the same. *)
Theorem status_never_decreases key ops v stub stub' :
  retrieve_product key stub = (Ok v, stub) →
  perform key ops stub = (Ok tt, stub') →
  ∃ v', retrieve_product key stub' = (Ok v', stub')
    ∧ Status v ≤ Status v' ∧ State v' = State v.
Proof.
  revert v stub. induction ops as [|op rest IH]; intros v stub Hv Hrun.
  - injection Hrun as <-. exists v. by repeat split.
  - simpl in Hrun. unfold try at 1 in Hrun. rewrite Hv in Hrun.
    unfold try at 1 in Hrun.
    destruct (run_cases op v stub)
      as [[err Herr]|(v1 & bytes & Hop & Hm & _ & Hid & _ & Hle & Hst)].
    { rewrite Herr in Hrun. discriminate. }
    rewrite Hop in Hrun.
    pose proof (retrieve_after_put key v (Product_Id v) v1 bytes stub Hv Hm)
      as Hnext.
    destruct (IH _ _ Hnext Hrun) as (v' & Hv' & Hle' & Hst').
    exists v'. split; [done|]. case_decide; split; try lia; congruence.
Qed.
End Decoding.
End Lifecycle.

Section LifecycleOnFixture.
Local Existing Instance Fixture.platform.

Lemma scrapped_is_final_witness :
  ∃ err,
    run (Scrap_vehicle "DVLA" BUYER_BANK)
      (set_Scrapped Fixture.registered true) (Fixture.stocked "DVLA")
    = (Err err, Fixture.stocked "DVLA")
    ∧ PermissionDenied err.
Proof.
  apply (scrapped_is_final (Scrap_vehicle "DVLA" BUYER_BANK)
           (set_Scrapped Fixture.registered true) (Fixture.stocked "DVLA")).
  reflexivity.
Defined.

(** The test [manufacturer_to_bank] makes first fails on a scrapped product
    whose make is still UNDEFINED, and gives the error its wording.  A
    product with make, model, registration, colour and VIN set, which its
    owner may pass on at ACCREDITIVE, is refused by the test on [Scrapped]
    once it is scrapped. *)
Example manufacturer_to_bank_first_test :
  let v := set_Status Fixture.shipped STATE_ACCREDITIVE in
  manufacturer_to_bank (set_Scrapped Fixture.registered true) "DVLA"
    MANUFACTURER "Beechvale" BUYER (Fixture.stocked "DVLA")
  = (Err "Car not fully defined", Fixture.stocked "DVLA")
  ∧ (manufacturer_to_bank v "Cray Bros" MANUFACTURER "Beechvale" BUYER
       (Fixture.stocked "DVLA")).1 = Ok None
  ∧ manufacturer_to_bank (set_Scrapped v true) "Cray Bros" MANUFACTURER
      "Beechvale" BUYER (Fixture.stocked "DVLA")
    = (Err "Permission denied", Fixture.stocked "DVLA").
Proof. repeat split; by vm_compute. Qed.

Lemma status_never_decreases_witness :
  ∃ v', retrieve_product "123456789"
          (perform "123456789" delivery (Fixture.stocked "DVLA")).2
        = (Ok v', (perform "123456789" delivery (Fixture.stocked "DVLA")).2)
    ∧ Status Fixture.registered ≤ Status v'
    ∧ State v' = State Fixture.registered.
Proof.
  apply (@status_never_decreases Fixture.platform
           unmarshal_marshal_product "123456789" delivery
           Fixture.registered (Fixture.stocked "DVLA")).
  - vm_compute. reflexivity.
  - vm_compute. reflexivity.
Defined.
End LifecycleOnFixture.

(** ** The allocator and the index *)

Section Index.
Context `{Platform}.

(** No path writes the key [productId] that the allocator reads: [Init]
    puts the holder under [pids], [create_product] under [v5cIDs].  On a
    ledger without that key the first draw is returned, whatever any holder
    lists. *)
Lemma createRandomId_first_draw fuel stub :
  get_fails stub "productId" = false →
  state stub !! "productId" = None →
  json_Unmarshal_Holder "" = None →
  (createRandomId (S fuel) stub).1
  = Ok (rand_source (rand_calls stub) `mod` 899999999 + 100000000).
Proof.
  intros Hg Hs Hu. simpl. unfold try at 1. unfold rand_Intn. simpl.
  unfold try at 1. unfold isRandomIdUnused, try, unchecked.
  unfold getAllUsedProductIds, try, GetState. simpl.
  rewrite Hg, Hs. simpl. by rewrite Hu.
Qed.
End Index.

Section IndexOnFixture.
Local Existing Instance Fixture.platform.

(** C5, at the failing input.  The holder under [v5cIDs], the index
    [create_product] appends to and [get_vehicles] reads, lists 123456789 and
    the record of that product is on the ledger; the allocator, which loads
    the key [productId], returns 123456789.  With a holder under [productId]
    that lists 123456789 and a second id whose record is missing, the load
    fails, its error is dropped and 123456789 is returned again.  Only when
    every listed record loads is the draw retried: the next id, 123456790,
    comes back. *)
Theorem createRandomId_returns_listed_id :
  json_Unmarshal_Holder
    (bytes_of (state (Fixture.stocked "DVLA") !! "v5cIDs"))
  = Some (mkHolder [123456789])
  ∧ (retrieve_product "123456789" (Fixture.stocked "DVLA")).1
    = Ok Fixture.registered
  ∧ (createRandomId 1 (Fixture.stocked "DVLA")).1 = Ok 123456789
  ∧ (createRandomId 1 (Fixture.allocating [123456789; 111111111])).1
    = Ok 123456789
  ∧ (createRandomId 2 (Fixture.allocating [123456789])).1 = Ok 123456790.
Proof. repeat split; by vm_compute. Qed.

Lemma createRandomId_first_draw_witness :
  (createRandomId 1 (Fixture.stocked "DVLA")).1
  = Ok (rand_source 0 `mod` 899999999 + 100000000).
Proof.
  apply (createRandomId_first_draw 0 (Fixture.stocked "DVLA"));
    by vm_compute.
Defined.
End IndexOnFixture.

(** ** Puts *)

Section Puts.
Context `{Platform}.

(** What the body of [create_product] would put with a decoder that takes
    the text: nothing, or the new product and then an error, or the new
    product and then the holder under [v5cIDs]. *)
Lemma create_product_puts fuel caller1 caller2 caller1_affiliation
    caller2_affiliation product_destination product_price product_currency
    contract caller_affiliation stub :
  let done :=
    create_product fuel caller1 caller2 caller1_affiliation
      caller2_affiliation product_destination product_price
      product_currency contract caller_affiliation stub in
  (state done.2 = state stub ∧ put_log done.2 = put_log stub)
  ∨ (∃ product bytes,
       json_Marshal_Product product = Some bytes
       ∧ ((∃ err, done.1 = Err err
             ∧ state done.2 = <[Product_Id product := bytes]> (state stub)
             ∧ put_log done.2
               = (put_log stub ++ [(Product_Id product, bytes)])%list)
          ∨ (∃ holder, done.1 = Ok None
               ∧ put_log done.2
                 = (put_log stub ++ [(Product_Id product, bytes);
                                     ("v5cIDs", holder)])%list))).
Proof.
  intros. subst done.
  destruct (create_product _ _ _ _ _ _ _ _ _ _ _) as [r stub'] eqn:Hrun.
  simpl. unfold create_product in Hrun. unfold try at 1 in Hrun.
  pose proof (createRandomId_same_ledger fuel stub) as Hsame.
  destruct (createRandomId fuel stub) as [[productId| | |] s1];
    simpl in Hsame; destruct Hsame as (Hst & Hgf & Hpf & Hcc & Hpl);
    try (unfold fail in Hrun; simplify_eq; by left).
  destruct (_ && _); [|unfold ret in Hrun; simplify_eq; by left].
  destruct (json_Unmarshal_Product _) as [product|];
    [|unfold fail in Hrun; simplify_eq; by left].
  unfold try at 1 in Hrun. unfold unchecked, GetState in Hrun.
  destruct (get_fails s1 (V5cID product)); simpl in Hrun;
    [|destruct (state s1 !! V5cID product) as [record|]; simpl in Hrun;
      [unfold fail in Hrun; simplify_eq; by left|]].
  all: destruct (negb _); [unfold fail in Hrun; simplify_eq; by left|].
  all: unfold try at 1 in Hrun.
  all: destruct (save_changes_cases product s1)
         as [[err Herr]|(bytes & Hm & Hp & Hsave)];
         [rewrite Herr in Hrun; unfold fail in Hrun; simplify_eq; by left|].
  all: rewrite Hsave in Hrun; right; exists product, bytes; split; [done|].
  all: unfold try at 1 in Hrun; unfold GetState in Hrun; simpl in Hrun.
  all: destruct (get_fails s1 "v5cIDs");
         [unfold fail in Hrun; simplify_eq; left; eexists; simpl;
          by rewrite Hst, Hpl|].
  all: destruct (json_Unmarshal_Holder _) as [v5cIDs|];
         [|unfold fail in Hrun; simplify_eq; left; eexists; simpl;
           by rewrite Hst, Hpl].
  all: unfold try, PutState in Hrun; simpl in Hrun.
  all: destruct (put_fails s1 "v5cIDs");
         [unfold fail in Hrun; simplify_eq; left; eexists; simpl;
          by rewrite Hst, Hpl|].
  all: unfold ret in Hrun; simplify_eq; right; eexists; simpl.
  all: split; [done|]; by rewrite Hpl, <- app_assoc.
Qed.

End Puts.

Section PutsOnFixture.
Local Existing Instance Fixture.platform.

End PutsOnFixture.

(** ** Identity *)

Section Identity.
Context `{Platform}.

(** The value [Atoi] returns with a non-nil error. *)
Lemma Atoi_error_value s :
  (Atoi s).2 = false → (Atoi s).1 = 0 ∨ (Atoi s).1 = maxInt ∨ (Atoi s).1 = minInt.
Proof.
  unfold Atoi.
  destruct (match s with
            | String "-" r => (true, r)
            | String "+" r => (false, r)
            | _ => (false, s)
            end) as [neg ds].
  destruct ds as [|c ds]; [auto|].
  destruct (all_digits _); [|auto].
  destruct neg; case_match; simpl; auto; discriminate.
Qed.

(** C7, amended.  For a certificate that decodes and parses, with a common
    name of three backslash-separated fields or more, [check_affiliation]
    succeeds with what [strconv.Atoi] gives for the third field: the number
    it denotes, and, the error of the conversion being dropped, 0 for a field
    that is not a number (the nearest bound for one out of range). *)
Theorem check_affiliation_third_field cert decodedCert pem_Bytes cn field stub :
  url_QueryUnescape cert = Some decodedCert →
  pem_Decode decodedCert = Some pem_Bytes →
  x509_ParseCertificate pem_Bytes = Some cn →
  Split cn "\" !! 2%nat = Some field →
  check_affiliation cert stub = (Ok (Atoi field).1, stub)
  ∧ ((Atoi field).2 = false →
     (Atoi field).1 = 0 ∨ (Atoi field).1 = maxInt ∨ (Atoi field).1 = minInt).
Proof.
  intros Hu Hp Hx Hf. split; [|apply Atoi_error_value].
  unfold check_affiliation. rewrite Hu, Hp, Hx, Hf.
  by destruct (Atoi field).
Qed.

(** With fewer than three fields the index expression panics. *)
Lemma check_affiliation_short_name cert decodedCert pem_Bytes cn stub :
  url_QueryUnescape cert = Some decodedCert →
  pem_Decode decodedCert = Some pem_Bytes →
  x509_ParseCertificate pem_Bytes = Some cn →
  Split cn "\" !! 2%nat = None →
  check_affiliation cert stub = (Panic, stub).
Proof.
  intros Hu Hp Hx Hf. unfold check_affiliation. by rewrite Hu, Hp, Hx, Hf.
Qed.
End Identity.

Section IdentityOnFixture.
Local Existing Instance Fixture.platform.

Lemma check_affiliation_third_field_witness :
  check_affiliation "Toyota\manufacturer\2" (Fixture.stocked "Toyota")
  = (Ok (Atoi "2").1, Fixture.stocked "Toyota")
  ∧ ((Atoi "2").2 = false →
     (Atoi "2").1 = 0 ∨ (Atoi "2").1 = maxInt ∨ (Atoi "2").1 = minInt).
Proof.
  apply (check_affiliation_third_field "Toyota\manufacturer\2"
           "Toyota\manufacturer\2" "Toyota\manufacturer\2"
           "Toyota\manufacturer\2" "2" (Fixture.stocked "Toyota"));
    reflexivity.
Defined.

(** C7, as stated, fails.  The common name [Mallory\buyer\three] has a third
    field that is not a number; the resolution does not fail, it succeeds
    with affiliation 0. *)
Lemma check_affiliation_non_numeric_succeeds :
  Split "Mallory\buyer\three" "\" !! 2%nat = Some "three"
  ∧ Atoi "three" = (0, false)
  ∧ check_affiliation "Mallory\buyer\three" (Fixture.stocked "Mallory")
    = (Ok 0, Fixture.stocked "Mallory").
Proof. repeat split; reflexivity. Qed.
End IdentityOnFixture.

(** ** The first transfer *)

Section Transfer.
Context `{Platform}.

(** C8.  When the product is at SALES_CONTRACT, owned by the caller, the
    caller a GOVERNMENT, the recipient a MANUFACTURER and the product not
    scrapped, [manufacturer_to_buyer] hands the product with the recipient as
    owner and status ACCREDITIVE to [save_changes]; where that record encodes
    and the ledger takes the put, the record is on the ledger under the
    product's id and the call returns.  When one of the five conditions
    fails, the call returns "Permission Denied" and the stub is as it was. *)
Theorem manufacturer_to_buyer_transfers v caller caller_affiliation
    recipient_name recipient_affiliation stub :
  let accepted :=
    Status v = STATE_SALESCONTRACT ∧ Owner v = caller
    ∧ caller_affiliation = GOVERNMENT ∧ recipient_affiliation = MANUFACTURER
    ∧ Scrapped v = false in
  let v' := set_Status (set_Owner v recipient_name) STATE_ACCREDITIVE in
  let done :=
    manufacturer_to_buyer v caller caller_affiliation recipient_name
      recipient_affiliation stub in
  (accepted →
   Owner v' = recipient_name ∧ Status v' = STATE_ACCREDITIVE
   ∧ Product_Id v' = Product_Id v
   ∧ ∀ bytes,
       json_Marshal_Product v' = Some bytes →
       put_fails stub (Product_Id v) = false →
       done = (Ok None, with_put stub (Product_Id v) bytes)
       ∧ state done.2 !! Product_Id v = Some bytes)
  ∧ (¬ accepted → done = (Err "Permission Denied", stub)).
Proof.
  simpl. unfold manufacturer_to_buyer. split.
  - intros (Hs & Ho & Hc & Hr & Hscr).
    split; [done|]. split; [done|]. split; [done|]. intros bytes Hm Hp.
    rewrite Hs, Ho, Hc, Hr, Hscr, String.eqb_refl. simpl.
    unfold try, save_changes, try, PutState.
    rewrite Hm. simpl. rewrite Hp. simpl.
    split; [done|]. apply lookup_insert_eq.
  - intros Hno.
    destruct (_ && _) eqn:Hguard; [|done].
    exfalso. apply Hno.
    repeat match goal with
      | Hb : _ && _ = true |- _ => apply andb_true_iff in Hb as [Hb ?]
      end.
    repeat split.
    + by apply Z.eqb_eq.
    + by apply String.eqb_eq.
    + by apply Z.eqb_eq.
    + by apply Z.eqb_eq.
    + by apply Bool.eqb_prop.
Qed.
End Transfer.

Section TransferOnFixture.
Local Existing Instance Fixture.platform.

Lemma manufacturer_to_buyer_transfers_witness :
  manufacturer_to_buyer Fixture.registered "DVLA" GOVERNMENT "Toyota"
    MANUFACTURER (Fixture.stocked "DVLA")
  = (Ok None,
     with_put (Fixture.stocked "DVLA") "123456789"
       (Fixture.encode_product
          (set_Status (set_Owner Fixture.registered "Toyota")
             STATE_ACCREDITIVE)))
  ∧ manufacturer_to_buyer Fixture.registered "Mallory" BUYER "Toyota"
      MANUFACTURER (Fixture.stocked "Mallory")
    = (Err "Permission Denied", Fixture.stocked "Mallory").
Proof.
  split.
  - destruct (manufacturer_to_buyer_transfers Fixture.registered "DVLA"
                GOVERNMENT "Toyota" MANUFACTURER (Fixture.stocked "DVLA"))
      as [Haccepted _].
    destruct Haccepted as (_ & _ & _ & Hput);
      [repeat split; reflexivity|].
    apply Hput; reflexivity.
  - apply (manufacturer_to_buyer_transfers Fixture.registered "Mallory"
             BUYER "Toyota" MANUFACTURER (Fixture.stocked "Mallory")).
    intros (_ & Howner & _). vm_compute in Howner. discriminate.
Defined.
End TransferOnFixture.

(** ** Reads *)

(** [s1 +:+ s2] behaves as list concatenation does. *)
Lemma append_cons c (s1 s2 : string) :
  String c s1 +:+ s2 = String c (s1 +:+ s2).
Proof. reflexivity. Qed.

Lemma append_assoc (s1 s2 s3 : string) :
  (s1 +:+ s2) +:+ s3 = s1 +:+ (s2 +:+ s3).
Proof.
  induction s1 as [|c s1 IH]; [done|]. rewrite !append_cons. by f_equal.
Qed.

Lemma append_empty_r (s : string) : s +:+ "" = s.
Proof.
  induction s as [|c s IH]; [done|]. rewrite append_cons. by f_equal.
Qed.

Lemma length_append (s1 s2 : string) :
  String.length (s1 +:+ s2) = (String.length s1 + String.length s2)%nat.
Proof.
  induction s1 as [|c s1 IH]; [done|]. rewrite append_cons. simpl.
  by f_equal.
Qed.

Lemma substring_append (s1 s2 : string) :
  substring 0 (String.length s1) (s1 +:+ s2) = s1.
Proof.
  induction s1 as [|c s1 IH]; [by destruct s2|]. rewrite append_cons. simpl.
  by f_equal.
Qed.

Section Reads.
Context `{Platform}.

(** C9.  For a product with an encoding, [get_vehicle_details] returns the
    encoding exactly when the caller is the owner or a GOVERNMENT, and
    "Permission Denied" otherwise; whatever it returns, the stub is as it
    was. *)
Theorem get_vehicle_details_reads v caller caller_affiliation stub bytes :
  json_Marshal_Product v = Some bytes →
  (get_vehicle_details v caller caller_affiliation stub
   = (Ok (Some bytes), stub) ↔ permitted caller caller_affiliation v)
  ∧ (¬ permitted caller caller_affiliation v →
     get_vehicle_details v caller caller_affiliation stub
     = (Err "Permission Denied", stub))
  ∧ (get_vehicle_details v caller caller_affiliation stub).2 = stub.
Proof.
  intros Hm. split; [|split; [|apply get_vehicle_details_stub]];
    unfold get_vehicle_details, permitted; rewrite Hm;
    destruct (String.eqb_spec (Owner v) caller) as [Ho|Ho];
    destruct (Z.eqb_spec caller_affiliation GOVERNMENT) as [Ha|Ha]; simpl;
    try (split; [by auto|done]); try done; try (intros []; auto; done).
  split; [discriminate|]. by intros [|].
Qed.

Lemma get_vehicle_details_cases v caller caller_affiliation stub :
  get_vehicle_details v caller caller_affiliation stub
  = match (if decide (permitted caller caller_affiliation v)
           then json_Marshal_Product v else None) with
    | Some bytes => (Ok (Some bytes), stub)
    | None =>
        (Err (match json_Marshal_Product v with
              | Some _ => "Permission Denied"
              | None => "GET_VEHICLE_DETAILS: Invalid vehicle object"
              end), stub)
    end.
Proof.
  unfold get_vehicle_details, permitted.
  destruct (json_Marshal_Product v) as [bytes|]; [|by case_decide].
  destruct (String.eqb_spec (Owner v) caller) as [Ho|Ho];
    destruct (Z.eqb_spec caller_affiliation GOVERNMENT) as [Ha|Ha]; simpl;
    case_decide as Hp; try done; exfalso; tauto.
Qed.

Lemma collect_details_loaded v5cs vs caller caller_affiliation result stub :
  Forall2 (λ v5c v, retrieve_product (Itoa v5c) stub = (Ok v, stub)) v5cs vs →
  collect_details v5cs caller caller_affiliation result stub
  = (Ok (result +:+ appended (readable caller caller_affiliation vs)), stub).
Proof.
  intros Hall. revert result.
  induction Hall as [|v5c v v5cs vs Hv _ IH]; intros result; simpl.
  { by rewrite append_empty_r. }
  unfold try at 1. rewrite Hv. unfold try at 1.
  rewrite get_vehicle_details_cases. unfold readable in *.
  case_decide as Hp.
  - rewrite filter_cons_True by done. simpl.
    destruct (json_Marshal_Product v) as [bytes|]; simpl; [|apply IH].
    rewrite IH. by rewrite !append_assoc.
  - rewrite filter_cons_False by done. apply IH.
Qed.

Lemma collect_details_missing v5cs caller caller_affiliation result stub :
  Exists (λ v5c, ∃ err, retrieve_product (Itoa v5c) stub = (Err err, stub))
    v5cs →
  collect_details v5cs caller caller_affiliation result stub
  = (Err "Failed to retrieve V5C", stub).
Proof.
  revert result. induction v5cs as [|v5c v5cs IH]; intros result Hex.
  { by apply Exists_nil in Hex. }
  simpl. unfold try at 1.
  destruct (retrieve_product_cases (Itoa v5c) stub) as [[v Hv]|[err Herr]].
  - rewrite Hv. unfold try.
    apply Exists_cons in Hex as [[err Herr]|Hex]; [congruence|].
    rewrite get_vehicle_details_cases.
    destruct (if decide _ then _ else _); by apply IH.
  - by rewrite Herr.
Qed.

Lemma appended_concat item items :
  appended (item :: items) = String.concat "," (item :: items) +:+ ",".
Proof.
  revert item. induction items as [|item' items IH]; intros item.
  - simpl. by rewrite append_empty_r.
  - change (appended (item :: item' :: items))
      with (item +:+ "," +:+ appended (item' :: items)).
    rewrite IH.
    change (String.concat "," (item :: item' :: items))
      with (item +:+ "," +:+ String.concat "," (item' :: items)).
    by rewrite !append_assoc.
Qed.

(** C10.  Where the holder under [v5cIDs] loads: if every listed record
    loads, [get_vehicles] returns the array of the encodings of the listed
    products the caller may read (its own, all of them for a GOVERNMENT), in
    the order of the holder, the others left out, and the stub is as it was;
    if a listed record cannot be retrieved or decoded, the query fails. *)
Theorem get_vehicles_lists_permitted caller caller_affiliation v5cs stub :
  get_fails stub "v5cIDs" = false →
  json_Unmarshal_Holder (bytes_of (state stub !! "v5cIDs"))
  = Some (mkHolder v5cs) →
  (∀ vs,
     Forall2 (λ v5c v, retrieve_product (Itoa v5c) stub = (Ok v, stub))
       v5cs vs →
     get_vehicles caller caller_affiliation stub
     = (Ok (Some (listing (readable caller caller_affiliation vs))), stub))
  ∧ (Exists (λ v5c, ∃ err,
               retrieve_product (Itoa v5c) stub = (Err err, stub)) v5cs →
     get_vehicles caller caller_affiliation stub
     = (Err "Failed to retrieve V5C", stub)).
Proof.
  intros Hg Hu. split.
  - intros vs Hall. unfold get_vehicles, try, GetState.
    rewrite Hg, Hu. simpl.
    rewrite (collect_details_loaded _ _ _ _ _ _ Hall).
    destruct (readable caller caller_affiliation vs) as [|item items];
      [done|].
    rewrite appended_concat, <- append_assoc.
    set (body := "[" +:+ String.concat "," (item :: items)).
    rewrite length_append. change (String.length ",") with 1%nat.
    destruct (Nat.eqb_spec (String.length body + 1) 1) as [Hlen|_].
    { exfalso. subst body. rewrite append_cons in Hlen. simpl in Hlen. lia. }
    replace (String.length body + 1 - 1)%nat with (String.length body)
      by lia.
    rewrite substring_append. unfold ret, listing. subst body.
    by rewrite append_assoc.
  - intros Hex. unfold get_vehicles, try, GetState.
    rewrite Hg, Hu. simpl.
    by rewrite (collect_details_missing _ _ _ _ _ Hex).
Qed.
End Reads.

Section ReadsOnFixture.
Local Existing Instance Fixture.platform.

Lemma get_vehicle_details_reads_witness :
  (get_vehicle_details Fixture.registered "Toyota" GOVERNMENT
     (Fixture.fleet "Toyota")
   = (Ok (Some (Fixture.encode_product Fixture.registered)),
      Fixture.fleet "Toyota")
   ↔ permitted "Toyota" GOVERNMENT Fixture.registered)
  ∧ (¬ permitted "Toyota" GOVERNMENT Fixture.registered →
     get_vehicle_details Fixture.registered "Toyota" GOVERNMENT
       (Fixture.fleet "Toyota")
     = (Err "Permission Denied", Fixture.fleet "Toyota"))
  ∧ (get_vehicle_details Fixture.registered "Toyota" GOVERNMENT
       (Fixture.fleet "Toyota")).2 = Fixture.fleet "Toyota".
Proof.
  apply (get_vehicle_details_reads Fixture.registered "Toyota" GOVERNMENT
           (Fixture.fleet "Toyota")
           (Fixture.encode_product Fixture.registered)).
  reflexivity.
Defined.

(** Scenario E: a caller that neither owns the product nor is a GOVERNMENT
    is refused, a GOVERNMENT reads any product. *)
Example get_vehicle_details_scenario_E :
  get_vehicle_details Fixture.registered "Toyota" MANUFACTURER
    (Fixture.fleet "Toyota")
  = (Err "Permission Denied", Fixture.fleet "Toyota")
  ∧ get_vehicle_details Fixture.accredited "DVLA" GOVERNMENT
      (Fixture.fleet "DVLA")
    = (Ok (Some (Fixture.encode_product Fixture.accredited)),
       Fixture.fleet "DVLA").
Proof. split; reflexivity. Qed.

Lemma get_vehicles_lists_permitted_witness :
  get_vehicles "Toyota" MANUFACTURER (Fixture.fleet "Toyota")
  = (Ok (Some (listing (readable "Toyota" MANUFACTURER
                          [Fixture.registered; Fixture.accredited]))),
     Fixture.fleet "Toyota").
Proof.
  assert (json_Unmarshal_Holder
            (bytes_of (state (Fixture.fleet "Toyota") !! "v5cIDs"))
          = Some (mkHolder [123456789; 123456790])) as Hholder.
  { vm_compute. reflexivity. }
  destruct (get_vehicles_lists_permitted "Toyota" MANUFACTURER
              [123456789; 123456790] (Fixture.fleet "Toyota") eq_refl Hholder)
    as [Hloaded _].
  apply Hloaded. repeat constructor; vm_compute; reflexivity.
Defined.

(** The manufacturer is shown its own product, the regulator both, and a
    holder that lists a missing record fails the query. *)
Example get_vehicles_on_fleet :
  get_vehicles "Toyota" MANUFACTURER (Fixture.fleet "Toyota")
  = (Ok (Some (listing [Fixture.encode_product Fixture.accredited])),
     Fixture.fleet "Toyota")
  ∧ get_vehicles "DVLA" GOVERNMENT (Fixture.fleet "DVLA")
    = (Ok (Some (listing [Fixture.encode_product Fixture.registered;
                          Fixture.encode_product Fixture.accredited])),
       Fixture.fleet "DVLA")
  ∧ get_vehicles "Beechvale" BUYER (Fixture.fleet "Beechvale")
    = (Ok (Some "[]"), Fixture.fleet "Beechvale")
  ∧ get_vehicles "DVLA" GOVERNMENT (Fixture.dangling "DVLA")
    = (Err "Failed to retrieve V5C", Fixture.dangling "DVLA").
Proof. repeat split; by vm_compute. Qed.
End ReadsOnFixture.

(** * Further properties *)

(** ** The handlers, test by test *)

Section HandlerFacts.
Context `{Platform}.

Lemma accepts_owner op v :
  accepts op v = true → Owner v = caller_of op ∧ Scrapped v = false.
Proof.
  destruct op; simpl; intros Hacc;
    repeat match goal with
      | Hb : _ && _ = true |- _ => apply andb_true_iff in Hb as [? ?]
      end;
    split; (by apply String.eqb_eq) || (by apply Bool.eqb_prop).
Qed.

(** X1.  A handler that returns without an error was called by the owner of
    the product, on a product that was not scrapped. *)
Theorem only_the_owner_changes_a_product op v stub r stub' :
  run op v stub = (Ok r, stub') →
  Owner v = caller_of op ∧ Scrapped v = false.
Proof. intros (Hacc & _)%run_Ok. by apply accepts_owner. Qed.

Section Decoding.
Hypothesis Unmarshal_Marshal : ∀ p bytes,
  json_Marshal_Product p = Some bytes → json_Unmarshal_Product bytes = Some p.

Lemma retrieve_put key v bytes stub :
  get_fails stub key = false →
  json_Marshal_Product v = Some bytes →
  retrieve_product key (with_put stub key bytes)
  = (Ok v, with_put stub key bytes).
Proof.
  intros Hg Hm. apply retrieve_product_Ok. split; [done|]. simpl.
  rewrite lookup_insert_eq. simpl. by apply Unmarshal_Marshal.
Qed.

(** What is read back after a handler that returned without an error. *)
Lemma run_read_back op v stub r stub' :
  run op v stub = (Ok r, stub') →
  get_fails stub (Product_Id v) = false →
  retrieve_product (Product_Id v) stub' = (Ok (effect op v), stub').
Proof.
  intros (_ & _ & bytes & Hm & _ & ->)%run_Ok Hg. by apply retrieve_put.
Qed.

(** X2.  After a handler that returned without an error, the record read
    back under the product's id has the id, the checksum, the manufacturer,
    the places, the route, the declared state, the price, the currency, the
    dimensions, the contract and the VIN the product had: no handler changes
    them. *)
Theorem handlers_keep_the_description op v stub r stub' :
  run op v stub = (Ok r, stub') →
  get_fails stub (Product_Id v) = false →
  ∃ v', retrieve_product (Product_Id v) stub' = (Ok v', stub')
    ∧ Product_Id v' = Product_Id v ∧ CheckId v' = CheckId v
    ∧ Manufacturer v' = Manufacturer v ∧ Origin v' = Origin v
    ∧ Current_location v' = Current_location v
    ∧ Destination v' = Destination v ∧ Route v' = Route v
    ∧ State v' = State v ∧ Price v' = Price v ∧ Currency v' = Currency v
    ∧ Width v' = Width v ∧ Height v' = Height v ∧ Weight v' = Weight v
    ∧ Sales_contract v' = Sales_contract v ∧ VIN v' = VIN v.
Proof.
  intros Hrun Hg. exists (effect op v).
  split; [by eapply run_read_back|]. by destruct op.
Qed.

(** X3.  After a transfer that returned without an error the record read
    back is owned by the recipient; and when the recipient is not the caller,
    every further call the caller makes on that record is refused and leaves
    the stub as it is. *)
Theorem transfer_hands_over op recipient v stub r stub' :
  recipient_of op = Some recipient →
  run op v stub = (Ok r, stub') →
  get_fails stub (Product_Id v) = false →
  ∃ v', retrieve_product (Product_Id v) stub' = (Ok v', stub')
    ∧ Owner v' = recipient
    ∧ (recipient ≠ caller_of op →
       ∀ op', caller_of op' = caller_of op →
              ∃ err, run op' v' stub' = (Err err, stub')).
Proof.
  intros Hrec Hrun Hg. exists (effect op v).
  split; [by eapply run_read_back|].
  assert (Owner (effect op v) = recipient) as Hown
    by (destruct op; simpl in *; congruence).
  split; [done|]. intros Hne op' Hcaller.
  rewrite run_accepts.
  destruct (accepts op' (effect op v)) eqn:Hacc; [|eauto].
  apply accepts_owner in Hacc as [Hacc _]. congruence.
Qed.

(** X4.  After an update that returned without an error the record read back
    has the new value in the field of the update and the owner, the status,
    the scrapped mark and the three other descriptive fields it had. *)
Theorem update_changes_one_field op v stub r stub' :
  recipient_of op = None →
  (∀ caller caller_affiliation, op ≠ Scrap_vehicle caller caller_affiliation) →
  run op v stub = (Ok r, stub') →
  get_fails stub (Product_Id v) = false →
  ∃ v', retrieve_product (Product_Id v) stub' = (Ok v', stub')
    ∧ Owner v' = Owner v ∧ Status v' = Status v ∧ Scrapped v' = Scrapped v
    ∧ match op with
      | Update_registration _ _ x =>
          Reg v' = x ∧ Colour v' = Colour v ∧ Make v' = Make v
          ∧ Name v' = Name v
      | Update_colour _ _ x =>
          Colour v' = x ∧ Reg v' = Reg v ∧ Make v' = Make v
          ∧ Name v' = Name v
      | Update_make _ _ x =>
          Make v' = x ∧ Reg v' = Reg v ∧ Colour v' = Colour v
          ∧ Name v' = Name v
      | Update_model _ _ x =>
          Name v' = x ∧ Reg v' = Reg v ∧ Colour v' = Colour v
          ∧ Make v' = Make v
      | _ => True
      end.
Proof.
  intros Hrec Hscrap Hrun Hg. exists (effect op v).
  split; [by eapply run_read_back|].
  destruct op; simpl in *; try done. by destruct (Hscrap caller caller_affiliation).
Qed.

(** A product that no handler accepts stops every trace. *)
Lemma perform_refused key v op ops stub :
  retrieve_product key stub = (Ok v, stub) →
  accepts op v = false →
  ∃ err, perform key (op :: ops) stub = (Err err, stub).
Proof.
  intros Hv Hacc. simpl. unfold try at 1. rewrite Hv. unfold try at 1.
  rewrite run_accepts, Hacc. eauto.
Qed.

Lemma scrapped_accepts op v : Scrapped v = true → accepts op v = false.
Proof.
  intros Hs. destruct (accepts op v) eqn:Hacc; [|done].
  apply accepts_owner in Hacc as [_ ?]. congruence.
Qed.

(** X5.  After a [scrap_vehicle] that returned without an error the record
    read back is marked scrapped, still at status SHIPPING (the status
    SCRAPPED is not set), and every trace of further calls on that record
    fails at its first call, with the stub as it is. *)
Theorem scrap_ends_the_lifecycle caller caller_affiliation v stub r stub' :
  run (Scrap_vehicle caller caller_affiliation) v stub = (Ok r, stub') →
  get_fails stub (Product_Id v) = false →
  ∃ v', retrieve_product (Product_Id v) stub' = (Ok v', stub')
    ∧ Scrapped v' = true ∧ Status v' = STATE_SHIPPING
    ∧ ∀ op ops, ∃ err,
        perform (Product_Id v) (op :: ops) stub' = (Err err, stub').
Proof.
  intros Hrun Hg.
  exists (effect (Scrap_vehicle caller caller_affiliation) v).
  pose proof (run_read_back _ _ _ _ _ Hrun Hg) as Hback.
  split; [done|]. split; [done|]. split.
  - apply run_Ok in Hrun as (Hacc & _). simpl in *.
    repeat match goal with
      | Hb : _ && _ = true |- _ => apply andb_true_iff in Hb as [Hb ?]
      end.
    by apply Z.eqb_eq.
  - intros op ops. eapply perform_refused; [done|].
    by apply scrapped_accepts.
Qed.

(** A property of products that every accepted handler call keeps is kept
    along every trace that succeeds. *)
Lemma perform_invariant (P : Product → Prop) key ops v stub stub' :
  (∀ op v, P v → accepts op v = true → P (effect op v)) →
  retrieve_product key stub = (Ok v, stub) →
  P v →
  perform key ops stub = (Ok tt, stub') →
  ∃ v', retrieve_product key stub' = (Ok v', stub') ∧ P v'.
Proof.
  intros Hkeep. revert v stub.
  induction ops as [|op rest IH]; intros v stub Hv HP Hrun.
  - injection Hrun as <-. eauto.
  - simpl in Hrun. unfold try at 1 in Hrun. rewrite Hv in Hrun.
    unfold try at 1 in Hrun.
    destruct (run op v stub) as [[r| | |] s1] eqn:Hop; try discriminate.
    apply run_Ok in Hop as (Hacc & _ & bytes & Hm & _ & ->).
    pose proof (retrieve_after_put Unmarshal_Marshal key v (Product_Id v)
                  (effect op v) bytes stub Hv Hm) as Hnext.
    eapply IH; [exact Hnext| |exact Hrun].
    case_decide; [by apply Hkeep|done].
Qed.

(** X6.  No handler sets the VIN, and [manufacturer_to_bank] refuses a
    product whose VIN is 0: along every trace of handler calls that all
    succeed, a record with VIN 0 at status SALES_CONTRACT or ACCREDITIVE
    keeps VIN 0 and does not get past ACCREDITIVE. *)
Theorem without_a_VIN_no_further_than_accreditive key ops v stub stub' :
  retrieve_product key stub = (Ok v, stub) →
  VIN v = 0 →
  Status v ≤ STATE_ACCREDITIVE →
  perform key ops stub = (Ok tt, stub') →
  ∃ v', retrieve_product key stub' = (Ok v', stub')
    ∧ VIN v' = 0 ∧ Status v' ≤ STATE_ACCREDITIVE.
Proof.
  intros Hv Hvin Hst Hrun.
  apply (perform_invariant (λ p, VIN p = 0 ∧ Status p ≤ STATE_ACCREDITIVE)
           key ops v stub stub'); try done.
  clear. intros op v [Hvin Hst] Hacc. unfold STATE_ACCREDITIVE in *.
  destruct op; simpl in *; unfold not_fully_defined in *;
    repeat match goal with
      | Hb : _ && _ = true |- _ => apply andb_true_iff in Hb as [Hb ?]
      | Hb : negb _ = true |- _ => apply negb_true_iff in Hb
      | Hb : _ || _ = false |- _ => apply orb_false_iff in Hb as [? Hb]
      | Hb : (_ =? _) = true |- _ => apply Z.eqb_eq in Hb
      | Hb : (_ =? _) = false |- _ => apply Z.eqb_neq in Hb
      end;
    unfold STATE_SALESCONTRACT, STATE_ACCREDITIVE, STATE_CHECK_ACCREDITIVE,
      STATE_SHIPPING in *;
    try (split; [done|lia]); try lia; try done.
Qed.

(** X7.  The handlers set no other status than ACCREDITIVE,
    CHECK_ACCREDITIVE and SHIPPING: along every trace of handler calls that
    all succeed, a record that starts at SALES_CONTRACT, ACCREDITIVE,
    CHECK_ACCREDITIVE or SHIPPING is at one of these four at the end, never
    at MANUFACTURE, PAYMENT, IN_USE or SCRAPPED. *)
Theorem four_statuses_are_reached key ops v stub stub' :
  retrieve_product key stub = (Ok v, stub) →
  Status v ∈ [STATE_SALESCONTRACT; STATE_ACCREDITIVE;
              STATE_CHECK_ACCREDITIVE; STATE_SHIPPING] →
  perform key ops stub = (Ok tt, stub') →
  ∃ v', retrieve_product key stub' = (Ok v', stub')
    ∧ Status v' ∈ [STATE_SALESCONTRACT; STATE_ACCREDITIVE;
                   STATE_CHECK_ACCREDITIVE; STATE_SHIPPING].
Proof.
  intros Hv Hst Hrun.
  apply (perform_invariant
           (λ p, Status p ∈ [STATE_SALESCONTRACT; STATE_ACCREDITIVE;
                             STATE_CHECK_ACCREDITIVE; STATE_SHIPPING])
           key ops v stub stub'); try done.
  clear. intros op v Hst _.
  destruct op; simpl; try done; rewrite !elem_of_cons; auto.
Qed.
End Decoding.
End HandlerFacts.

(** ** The routers and the deployment *)

Section Routers.
Context `{Platform}.

Lemma collect_details_stub v5cs caller caller_affiliation result stub :
  (collect_details v5cs caller caller_affiliation result stub).2 = stub.
Proof.
  revert result. induction v5cs as [|v5c rest IH]; intros result; [done|].
  simpl. unfold try at 1.
  destruct (retrieve_product_cases (Itoa v5c) stub) as [[v ->]|[err ->]];
    [|done].
  unfold try. rewrite get_vehicle_details_cases.
  destruct (if decide _ then _ else _); apply IH.
Qed.

Lemma get_vehicles_stub caller caller_affiliation stub :
  (get_vehicles caller caller_affiliation stub).2 = stub.
Proof.
  unfold get_vehicles, try, GetState, fail.
  destruct (get_fails stub "v5cIDs"); [done|].
  destruct (json_Unmarshal_Holder _) as [v5cIDs|]; [|done].
  pose proof (collect_details_stub (ProductIds v5cIDs) caller
                caller_affiliation "[" stub) as Hc.
  destruct (collect_details _ _ _ _ stub) as [[result| | |] s1];
    simpl in *; subst; try done.
  by destruct (_ =? _)%nat.
Qed.

(** X8.  Whatever the function and the arguments, [Query] leaves the stub
    as it was: no put, no draw. *)
Theorem Query_reads_only function args stub :
  (Query function args stub).2 = stub.
Proof.
  unfold Query, try.
  pose proof (get_caller_data_stub stub) as Hc.
  destruct (get_caller_data stub) as [[[caller aff]| | |] s1];
    simpl in *; subst; try done.
  destruct (String.eqb function "get_vehicle_details").
  - destruct (negb _); [done|].
    destruct (args !! 0%nat) as [a0|]; [|done].
    destruct (retrieve_product_cases a0 stub) as [[v ->]|[err ->]]; [|done].
    apply get_vehicle_details_stub.
  - destruct (String.eqb function "get_vehicles"); [|done].
    apply get_vehicles_stub.
Qed.

(** X9.  [get_vehicle_details] through [Query] takes one argument: with
    none, or with two or more, the call fails with "QUERY: Incorrect number
    of arguments passed" before any record is read. *)
Theorem Query_counts_the_arguments caller args stub :
  get_caller_data stub = (Ok caller, stub) →
  length args ≠ 1%nat →
  Query "get_vehicle_details" args stub
  = (Err "QUERY: Incorrect number of arguments passed", stub).
Proof.
  intros Hc Hlen. unfold Query, try. rewrite Hc. destruct caller. simpl.
  by destruct (Nat.eqb_spec (length args) 1).
Qed.

(** X10.  A function name that is neither [get_vehicle_details] nor
    [get_vehicles] fails with "Received unknown function invocation". *)
Theorem Query_unknown_function caller function args stub :
  get_caller_data stub = (Ok caller, stub) →
  function ≠ "get_vehicle_details" →
  function ≠ "get_vehicles" →
  Query function args stub
  = (Err "Received unknown function invocation", stub).
Proof.
  intros Hc H1 H2. unfold Query, try. rewrite Hc. destruct caller.
  apply String.eqb_neq in H1, H2. by rewrite H1, H2.
Qed.

(** X12.  When the caller cannot be resolved both routers fail before they
    look at the function or touch the ledger, and the error of the
    resolution is replaced by theirs. *)
Theorem routers_need_the_caller err fuel u function args stub :
  get_caller_data stub = (Err err, stub) →
  Invoke fuel u function args stub
  = (Err "Error retrieving caller information", stub)
  ∧ Query function args stub
    = (Err "QUERY: Error retrieving caller details", stub).
Proof. intros Hc. unfold Invoke, Query, try. by rewrite Hc. Qed.

(** X13.  [Invoke] indexes its arguments unchecked: for a resolved caller,
    [create_product] and [scrap_vehicle] without an argument, and any other
    function with fewer than two, panic on the index, with the stub as it
    was. *)
Theorem Invoke_short_of_arguments caller fuel u function args stub :
  get_caller_data stub = (Ok caller, stub) →
  (if bool_decide (function = "create_product"
                   ∨ function = "scrap_vehicle")
   then length args = 0%nat else (length args ≤ 1)%nat) →
  Invoke fuel u function args stub = (Panic, stub).
Proof.
  intros Hc Hlen. unfold Invoke, try. rewrite Hc. destruct caller.
  destruct (String.eqb_spec function "create_product") as [->|Hcreate].
  { rewrite bool_decide_eq_true_2 in Hlen by auto.
    by destruct args. }
  destruct (String.eqb_spec function "scrap_vehicle") as [->|Hscrap].
  { rewrite bool_decide_eq_true_2 in Hlen by auto.
    by destruct args. }
  rewrite bool_decide_eq_false_2 in Hlen by (intros [|]; done).
  destruct args as [|a [|b args]]; simpl in *; try done; lia.
Qed.

(** X14.  [Init] looks only at the error of its second put.  When the
    holder cannot be put under [pids] and the peer address can, [Init]
    returns without an error and the ledger has no holder. *)
Theorem Init_overlooks_the_first_put bytes function a args stub :
  json_Marshal_Holder (mkHolder []) = Some bytes →
  put_fails stub "pids" = true →
  put_fails stub "Peer_Address" = false →
  Init function (a :: args) stub
  = (Ok None, with_put stub "Peer_Address" a)
  ∧ state (Init function (a :: args) stub).2 !! "pids" = state stub !! "pids".
Proof.
  intros Hm Hp1 Hp2.
  assert (Init function (a :: args) stub
          = (Ok None, with_put stub "Peer_Address" a)) as ->.
  { unfold Init, try, PutState. rewrite Hm. simpl. by rewrite Hp1, Hp2. }
  split; [done|]. simpl. by rewrite lookup_insert_ne.
Qed.

(** X15.  [Init] without an argument panics on [args\[0\]], after the
    holder has been put. *)
Theorem Init_without_arguments bytes function stub :
  json_Marshal_Holder (mkHolder []) = Some bytes →
  put_fails stub "pids" = false →
  Init function [] stub = (Panic, with_put stub "pids" bytes).
Proof.
  intros Hm Hp. unfold Init, try, PutState. rewrite Hm. simpl.
  by rewrite Hp.
Qed.

(** What [Init] changes when it returns without an error. *)
Lemma Init_Ok function args stub r stub' :
  Init function args stub = (Ok r, stub') →
  get_fails stub' = get_fails stub
  ∧ ∀ key, key ≠ "pids" → key ≠ "Peer_Address" →
           state stub' !! key = state stub !! key.
Proof.
  unfold Init, try, PutState.
  destruct (json_Marshal_Holder _) as [bytes|]; [|discriminate].
  destruct args as [|a args]; simpl.
  { destruct (put_fails stub "pids"); discriminate. }
  destruct (put_fails stub "pids"); simpl;
    match goal with
    | |- context [put_fails ?s "Peer_Address"] =>
        destruct (put_fails s "Peer_Address")
    end; try discriminate;
    intros [= <- <-]; (split; [done|]); intros key H1 H2; simpl;
    by rewrite ?lookup_insert_ne.
Qed.

(** X16.  [Init] puts the holder under [pids]; [get_vehicles] reads it
    under [v5cIDs].  On a ledger that had no record under [v5cIDs], after an
    [Init] that returned without an error [get_vehicles] fails with
    "Corrupt V5C_Holder", for every caller. *)
Theorem get_vehicles_after_Init function args stub r stub' caller
    caller_affiliation :
  json_Unmarshal_Holder "" = None →
  get_fails stub "v5cIDs" = false →
  state stub !! "v5cIDs" = None →
  Init function args stub = (Ok r, stub') →
  get_vehicles caller caller_affiliation stub'
  = (Err "Corrupt V5C_Holder", stub').
Proof.
  intros Hu Hg Hs (Hgf & Hst)%Init_Ok.
  unfold get_vehicles, try, GetState.
  rewrite Hgf, Hg, Hst, Hs by done. simpl. by rewrite Hu.
Qed.
End Routers.

(** ** Records *)

Section Records.
Context `{Platform}.

(** X17.  Where decoding inverts encoding, a product that [save_changes]
    stored is the one [retrieve_product] loads under its id, and the records
    under the other keys load as before. *)
Theorem save_then_retrieve product stub saved stub' :
  (∀ p bytes, json_Marshal_Product p = Some bytes →
              json_Unmarshal_Product bytes = Some p) →
  save_changes product stub = (Ok saved, stub') →
  get_fails stub (Product_Id product) = false →
  retrieve_product (Product_Id product) stub' = (Ok product, stub')
  ∧ ∀ key, key ≠ Product_Id product →
           (retrieve_product key stub').1 = (retrieve_product key stub).1.
Proof.
  intros Hround Hsave Hg.
  destruct (save_changes_cases product stub)
    as [[err Herr]|(bytes & Hm & Hp & Hsaved)]; [congruence|].
  rewrite Hsaved in Hsave. injection Hsave as <- <-. split.
  - by apply retrieve_put.
  - intros key Hkey. unfold retrieve_product, try, GetState. simpl.
    rewrite lookup_insert_ne by done.
    destruct (get_fails stub key); [done|].
    by destruct (json_Unmarshal_Product _).
Qed.

(** X18.  A key the ledger does not hold is not reported as missing: where
    the empty input does not decode, [retrieve_product] fails with
    "RETRIEVE_PRODUCT: Corrupt product record", and so does
    [get_vehicle_details] through [Query], under its own prefix. *)
Theorem retrieve_missing_record key caller stub :
  json_Unmarshal_Product "" = None →
  get_fails stub key = false →
  state stub !! key = None →
  retrieve_product key stub
  = (Err "RETRIEVE_PRODUCT: Corrupt product record", stub)
  ∧ (get_caller_data stub = (Ok caller, stub) →
     Query "get_vehicle_details" [key] stub
     = (Err "QUERY: Error retrieving v5c RETRIEVE_PRODUCT: Corrupt product record",
        stub)).
Proof.
  intros Hu Hg Hs.
  assert (retrieve_product key stub
          = (Err "RETRIEVE_PRODUCT: Corrupt product record", stub)) as Hr.
  { unfold retrieve_product, try, GetState. rewrite Hg, Hs. simpl.
    by rewrite Hu. }
  split; [done|]. intros Hc. unfold Query, try. rewrite Hc.
  destruct caller. simpl. by rewrite Hr.
Qed.
End Records.

(** ** Identity *)

Section CallerData.
Context `{Platform}.

(** X19.  The caller's name is the common name of the transaction
    certificate, and the affiliation is the third field of the common name of
    the enrolment certificate the registrar at the stored peer address
    returns for that name. *)
Theorem get_caller_data_resolves cert user peer_address body ecert
    decodedCert pem_Bytes cn field stub :
  caller_certificate stub = Some cert →
  x509_ParseCertificate cert = Some user →
  get_fails stub "Peer_Address" = false →
  state stub !! "Peer_Address" = Some peer_address →
  http_Get ("http://" +:+ peer_address +:+ "/registrar/" +:+ user
            +:+ "/ecert") = Body body →
  json_Unmarshal_ECert body = Some (mkECert ecert "") →
  url_QueryUnescape ecert = Some decodedCert →
  pem_Decode decodedCert = Some pem_Bytes →
  x509_ParseCertificate pem_Bytes = Some cn →
  Split cn "\" !! 2%nat = Some field →
  get_caller_data stub = (Ok (user, (Atoi field).1), stub).
Proof.
  intros Hcert Huser Hg Hpeer Hhttp Hjson Hu Hp Hx Hf.
  unfold get_caller_data, try, get_username, try, GetCallerCertificate.
  rewrite Hcert, Huser. simpl.
  unfold get_ecert, try, GetState. rewrite Hg, Hpeer. simpl.
  rewrite Hhttp, Hjson. simpl.
  unfold check_affiliation. rewrite Hu, Hp, Hx, Hf.
  by destruct (Atoi field).
Qed.
End CallerData.

(** ** The allocator *)

Section Allocator.
Context `{Platform}.

Lemma retrieve_product_draws key stub n :
  (retrieve_product key (with_draws stub n)).1 = (retrieve_product key stub).1.
Proof.
  unfold retrieve_product, try, GetState. simpl.
  destruct (get_fails stub key); [done|].
  by destruct (json_Unmarshal_Product _).
Qed.

Lemma collect_used_draws pids i usedIds stub n :
  (collect_used i pids usedIds (with_draws stub n)).1
  = (collect_used i pids usedIds stub).1.
Proof.
  revert i usedIds. induction pids as [|pid rest IH]; intros i usedIds; [done|].
  simpl. unfold try.
  pose proof (retrieve_product_draws (Itoa pid) stub n) as Hr.
  pose proof (retrieve_product_stub (Itoa pid) stub) as Hs.
  pose proof (retrieve_product_stub (Itoa pid) (with_draws stub n)) as Hs'.
  destruct (retrieve_product (Itoa pid) stub) as [[p| | |] s1];
    destruct (retrieve_product (Itoa pid) (with_draws stub n))
      as [[p'| | |] s1'];
    simpl in *; simplify_eq; try done.
  case_decide; [apply IH|done].
Qed.

Lemma getAllUsedProductIds_draws stub n :
  (getAllUsedProductIds (with_draws stub n)).1 = (getAllUsedProductIds stub).1.
Proof.
  unfold getAllUsedProductIds, try, GetState. simpl.
  destruct (get_fails stub "productId"); [done|].
  destruct (json_Unmarshal_Holder _); [apply collect_used_draws|done].
Qed.

Lemma isRandomIdUnused_draws randomId stub n :
  (isRandomIdUnused randomId (with_draws stub n)).1
  = (isRandomIdUnused randomId stub).1.
Proof.
  unfold isRandomIdUnused, try, unchecked.
  pose proof (getAllUsedProductIds_draws stub n) as Hg.
  destruct (getAllUsedProductIds stub) as [[ids| | |] s1];
    destruct (getAllUsedProductIds (with_draws stub n)) as [[ids'| | |] s1'];
    simpl in *; simplify_eq; done.
Qed.

Lemma with_draws_with_draws stub n m :
  with_draws (with_draws stub n) m = with_draws stub m.
Proof. done. Qed.

(** One turn of the loop. *)
Lemma createRandomId_turn fuel stub :
  createRandomId (S fuel) stub
  = match (isRandomIdUnused (candidate stub 0) stub).1 with
    | Ok true => (Ok (candidate stub 0), with_draws stub (S (rand_calls stub)))
    | Ok false => createRandomId fuel (with_draws stub (S (rand_calls stub)))
    | Err err => (Err err, with_draws stub (S (rand_calls stub)))
    | Panic => (Panic, with_draws stub (S (rand_calls stub)))
    | Spinning => (Spinning, with_draws stub (S (rand_calls stub)))
    end.
Proof.
  simpl. unfold try at 1. unfold rand_Intn. simpl.
  change (mkStub (state stub) (get_fails stub) (put_fails stub)
            (caller_certificate stub) (put_log stub) (S (rand_calls stub)))
    with (with_draws stub (S (rand_calls stub))).
  unfold candidate. rewrite Nat.add_0_r. unfold try.
  change (999999999 - 100000000) with 899999999.
  set (id := rand_source (rand_calls stub) `mod` 899999999 + 100000000).
  pose proof (isRandomIdUnused_draws id stub (S (rand_calls stub))) as Hd.
  pose proof (isRandomIdUnused_stub id (with_draws stub (S (rand_calls stub))))
    as Hs.
  destruct (isRandomIdUnused id (with_draws stub (S (rand_calls stub))))
    as [[[|]| | |] s1]; cbn [fst snd] in Hd, Hs; subst s1; by rewrite <- Hd.
Qed.

Lemma candidate_next stub j :
  candidate (with_draws stub (S (rand_calls stub))) j = candidate stub (S j).
Proof. unfold candidate. simpl. f_equal. f_equal. f_equal. lia. Qed.

(** What a run of the loop that returned an id has done. *)
Lemma createRandomId_Ok fuel stub id stub' :
  createRandomId fuel stub = (Ok id, stub') →
  ∃ j, (j < fuel)%nat ∧ id = candidate stub j
    ∧ (isRandomIdUnused id stub).1 = Ok true
    ∧ (∀ i, (i < j)%nat →
            (isRandomIdUnused (candidate stub i) stub).1 = Ok false)
    ∧ stub' = with_draws stub (rand_calls stub + S j).
Proof.
  revert stub. induction fuel as [|fuel IH]; intros stub; [discriminate|].
  rewrite createRandomId_turn.
  destruct (isRandomIdUnused (candidate stub 0) stub).1
    as [[|]| | |] eqn:Hcheck; try discriminate.
  - intros [= <- <-]. exists 0%nat. repeat split; try done; try lia.
    by rewrite Nat.add_1_r.
  - intros (j & Hj & -> & Hok & Hbefore & ->)%IH.
    exists (S j). rewrite candidate_next in *.
    rewrite isRandomIdUnused_draws in Hok.
    split; [lia|]. split; [done|]. split; [done|]. split.
    + intros [|i] Hi; [done|].
      rewrite <- candidate_next,
        <- (isRandomIdUnused_draws _ stub (S (rand_calls stub))).
      apply Hbefore. lia.
    + rewrite with_draws_with_draws. simpl. f_equal. lia.
Qed.

(** X20.  An id [createRandomId] returns has nine digits: it lies between
    100000000 and 999999998. *)
Theorem createRandomId_nine_digits fuel stub id stub' :
  createRandomId fuel stub = (Ok id, stub') →
  100000000 ≤ id ≤ 999999998.
Proof.
  intros (j & _ & -> & _)%createRandomId_Ok. unfold candidate.
  pose proof (Z.mod_pos_bound (rand_source (rand_calls stub + j)) 899999999).
  lia.
Qed.

(** X21.  The loop ends at the first candidate that passes the check: when
    the candidates of the first [j] draws are found used and the next one
    unused, [createRandomId] with more than [j] turns returns that one,
    having made [j + 1] draws. *)
Theorem createRandomId_first_unused fuel j stub :
  (j < fuel)%nat →
  (∀ i, (i < j)%nat →
        (isRandomIdUnused (candidate stub i) stub).1 = Ok false) →
  (isRandomIdUnused (candidate stub j) stub).1 = Ok true →
  createRandomId fuel stub
  = (Ok (candidate stub j), with_draws stub (rand_calls stub + S j)).
Proof.
  revert fuel stub. induction j as [|j IH]; intros fuel stub Hfuel Hused Hfree;
    (destruct fuel as [|fuel]; [lia|]); rewrite createRandomId_turn.
  - rewrite Hfree. by rewrite Nat.add_1_r.
  - rewrite (Hused 0%nat) by lia.
    rewrite (IH fuel (with_draws stub (S (rand_calls stub)))).
    + rewrite candidate_next, with_draws_with_draws. simpl.
      do 2 f_equal. lia.
    + lia.
    + intros i Hi. rewrite candidate_next, isRandomIdUnused_draws.
      apply Hused. lia.
    + by rewrite candidate_next, isRandomIdUnused_draws.
Qed.

Lemma id_absent_not_elem usedIds randomId :
  id_absent usedIds randomId = true ↔ randomId ∉ usedIds.
Proof.
  induction usedIds as [|id rest IH]; simpl.
  - split; [|done]. intros _. apply not_elem_of_nil.
  - rewrite not_elem_of_cons.
    destruct (Z.eqb_spec id randomId) as [->|Hne].
    + split; [done|]. by intros [? _].
    + rewrite IH. split; [by split|by intros [_ ?]].
Qed.

Lemma collect_used_loaded pids ps i usedIds stub :
  Forall2 (λ pid p, retrieve_product (Itoa pid) stub = (Ok p, stub)) pids ps →
  (i + length pids ≤ length usedIds)%nat →
  collect_used i pids usedIds stub
  = (Ok (list_inserts i ((λ p, (Atoi (Product_Id p)).1) <$> ps) usedIds),
     stub).
Proof.
  intros Hall. revert i usedIds.
  induction Hall as [|pid p pids ps Hp _ IH]; intros i usedIds Hlen; [done|].
  simpl in *. unfold try. rewrite Hp.
  rewrite decide_True by lia.
  rewrite IH by (rewrite length_insert; lia).
  by rewrite list_insert_inserts_lt by lia.
Qed.

Lemma collect_used_overflow pids ps i usedIds stub :
  Forall2 (λ pid p, retrieve_product (Itoa pid) stub = (Ok p, stub)) pids ps →
  (i ≤ length usedIds < i + length pids)%nat →
  collect_used i pids usedIds stub = (Panic, stub).
Proof.
  intros Hall. revert i usedIds.
  induction Hall as [|pid p pids ps Hp _ IH]; intros i usedIds Hlen;
    simpl in *; [lia|].
  unfold try. rewrite Hp. case_decide; [|done].
  apply IH. rewrite length_insert. lia.
Qed.

Lemma getAllUsedProductIds_loaded pids ps stub :
  get_fails stub "productId" = false →
  json_Unmarshal_Holder (bytes_of (state stub !! "productId"))
  = Some (mkHolder pids) →
  Forall2 (λ pid p, retrieve_product (Itoa pid) stub = (Ok p, stub)) pids ps →
  (length pids ≤ 500)%nat →
  getAllUsedProductIds stub
  = (Ok (((λ p, (Atoi (Product_Id p)).1) <$> ps)
         ++ replicate (500 - length pids) 0)%list, stub).
Proof.
  intros Hg Hu Hall Hroom. unfold getAllUsedProductIds, try, GetState.
  rewrite Hg. cbv beta iota zeta. rewrite Hu.
  pose proof (Forall2_length _ _ _ Hall) as Hlen.
  rewrite (collect_used_loaded _ _ _ _ _ Hall)
    by (rewrite length_replicate; lia).
  do 2 f_equal.
  replace 500%nat with (length pids + (500 - length pids))%nat at 1 by lia.
  rewrite replicate_add. apply list_inserts_0_r.
  by rewrite length_fmap, length_replicate.
Qed.

(** X22.  [getAllUsedProductIds] has room for 500 ids.  Where the holder
    under [productId] loads and every listed record loads: with 500 listed
    ids at most, it returns the numbers of the [Product_Id]s of the listed
    records, in the order of the holder, followed by zeros up to 500
    entries; with more than 500, it panics. *)
Theorem getAllUsedProductIds_room pids ps stub :
  get_fails stub "productId" = false →
  json_Unmarshal_Holder (bytes_of (state stub !! "productId"))
  = Some (mkHolder pids) →
  Forall2 (λ pid p, retrieve_product (Itoa pid) stub = (Ok p, stub)) pids ps →
  getAllUsedProductIds stub
  = if decide (length pids ≤ 500)%nat
    then (Ok (((λ p, (Atoi (Product_Id p)).1) <$> ps)
              ++ replicate (500 - length pids) 0)%list, stub)
    else (Panic, stub).
Proof.
  intros Hg Hu Hall. case_decide as Hroom.
  - by apply getAllUsedProductIds_loaded.
  - unfold getAllUsedProductIds, try, GetState.
    rewrite Hg. cbv beta iota zeta. rewrite Hu.
    apply (collect_used_overflow _ _ _ _ _ Hall).
    rewrite length_replicate. lia.
Qed.

(** X23.  Where the holder under [productId] loads, lists 500 ids at most
    and every listed record loads, the id [createRandomId] returns is the
    number of the [Product_Id] of none of the listed records. *)
Theorem createRandomId_avoids_listed_products pids ps fuel stub id stub' :
  get_fails stub "productId" = false →
  json_Unmarshal_Holder (bytes_of (state stub !! "productId"))
  = Some (mkHolder pids) →
  Forall2 (λ pid p, retrieve_product (Itoa pid) stub = (Ok p, stub)) pids ps →
  (length pids ≤ 500)%nat →
  createRandomId fuel stub = (Ok id, stub') →
  Forall (λ p, (Atoi (Product_Id p)).1 ≠ id) ps.
Proof.
  intros Hg Hu Hall Hroom (j & _ & _ & Hok & _)%createRandomId_Ok.
  unfold isRandomIdUnused, try, unchecked in Hok.
  rewrite (getAllUsedProductIds_loaded _ _ _ Hg Hu Hall Hroom) in Hok.
  simpl in Hok.
  injection Hok as Hok. apply id_absent_not_elem in Hok.
  apply Forall_forall. intros p Hp Heq. apply Hok.
  apply elem_of_app. left. apply list_elem_of_fmap. eauto.
Qed.
End Allocator.

(** ** Creation *)

Section Creation.
Context `{Platform}.

(** X24.  Outside the test on the two affiliations [create_product] does
    nothing but draw the id: when the seller is not a MANUFACTURER or the
    buyer not a BUYER it returns without an error, whatever the affiliation
    of the caller, and nothing is put. *)
Theorem create_product_outside_the_test fuel caller1 caller2
    caller1_affiliation caller2_affiliation product_destination product_price
    product_currency contract caller_affiliation stub productId stub1 :
  createRandomId fuel stub = (Ok productId, stub1) →
  caller1_affiliation ≠ MANUFACTURER ∨ caller2_affiliation ≠ BUYER →
  create_product fuel caller1 caller2 caller1_affiliation
    caller2_affiliation product_destination product_price product_currency
    contract caller_affiliation stub
  = (Ok None, stub1)
  ∧ state stub1 = state stub ∧ put_log stub1 = put_log stub.
Proof.
  intros Hid Hgate.
  pose proof (createRandomId_same_ledger fuel stub) as Hsame.
  rewrite Hid in Hsame. simpl in Hsame. destruct Hsame as (Hst & _ & _ & _ & Hpl).
  split; [|done]. unfold create_product, try at 1. rewrite Hid.
  replace ((caller1_affiliation =? 2) && (caller2_affiliation =? 3))
    with false; [done|].
  symmetry. apply andb_false_iff. unfold MANUFACTURER, BUYER in Hgate.
  destruct Hgate as [Hne|Hne]; [left|right]; by apply Z.eqb_neq.
Qed.

(** X25.  Where encoding/json rejects the text of a creation, no call of
    [Invoke] changes the ledger, whatever the function, the arguments and the
    caller; and the one call that returns without an error is a
    [create_product] that created nothing. *)
Theorem Invoke_changes_no_ledger fuel u function args stub :
  (∀ productId caller1,
     json_Unmarshal_Product
       (product_json productId caller1 (u_destination u) (u_price u)
          (u_currency u) (u_contract u)) = None) →
  same_ledger stub (Invoke fuel u function args stub).2
  ∧ ∀ r, (Invoke fuel u function args stub).1 = Ok r →
         function = "create_product" ∧ r = None.
Proof.
  intros Hrejected.
  destruct (String.eqb_spec function "create_product") as [->|Hf].
  - unfold Invoke, try.
    pose proof (get_caller_data_stub stub) as Hc.
    destruct (get_caller_data stub) as [[[caller1 aff]| | |] s1];
      simpl in *; subst; try (by split).
    destruct (args !! 0%nat) as [a0|]; [|by split].
    rewrite (create_product_rejected caller1 (u_destination u) (u_price u)
               (u_currency u) (u_contract u)) by done.
    pose proof (createRandomId_same_ledger fuel stub) as Hsame.
    destruct (createRandomId fuel stub) as [[productId| | |] s2];
      simpl in *; try (by split).
    split; [done|]. intros r. destruct (_ && _); [done|].
    by intros [= <-].
  - destruct (Invoke_calls_no_handler fuel u function args stub Hf)
      as [-> Hnot].
    split; [done|]. intros r Hr. by destruct (Hnot r).
Qed.

(** X26.  No creation goes through.  Where encoding/json rejects the text
    built for a seller that is a MANUFACTURER and a buyer that is a BUYER,
    [create_product] fails with "Invalid JSON object" as soon as the id is
    drawn, whatever the affiliation of the caller, GOVERNMENT included, and
    whatever the ledger holds: it gets to none of its reads, of its tests on
    the record and the caller, and of its puts. *)
Theorem create_product_never_creates fuel caller1 caller2
    product_destination product_price product_currency contract
    caller_affiliation stub productId stub1 :
  (∀ productId,
     json_Unmarshal_Product
       (product_json productId caller1 product_destination product_price
          product_currency contract) = None) →
  createRandomId fuel stub = (Ok productId, stub1) →
  create_product fuel caller1 caller2 MANUFACTURER BUYER product_destination
    product_price product_currency contract caller_affiliation stub
  = (Err "Invalid JSON object", stub1)
  ∧ state stub1 = state stub ∧ put_log stub1 = put_log stub.
Proof.
  intros Hrejected Hid.
  pose proof (createRandomId_same_ledger fuel stub) as Hsame.
  rewrite Hid in Hsame. simpl in Hsame.
  destruct Hsame as (Hst & _ & _ & _ & Hpl).
  split; [|done]. rewrite create_product_rejected by done. by rewrite Hid.
Qed.
End Creation.

(** ** The REST handlers *)

Section RestHandlers.
Import Rest.
Variable JSON_parse : value → completion value.

(** X27.  Both handlers post in the name of the user of the cookie when the
    request carries one and of the user of the session otherwise, and leave
    that user in the session (the owner handler in [user_id] too): a second
    request of the same session without a cookie is posted in the same
    name. *)
Theorem read_in_the_name_of req config req' config' :
  cookies_user req' = Undefined →
  session_user req' = session_user (Reg.read req config).1 →
  let user := match cookies_user req with
              | Undefined => session_user req
              | user => user
              end in
  secureContext (Reg.read req config).2 = Normal user
  ∧ secureContext (Owner.read req config).1.2 = Normal user
  ∧ (Owner.read req config).2 = user
  ∧ session_user (Reg.read req config).1 = user
  ∧ secureContext (Reg.read req' config').2 = Normal user.
Proof.
  intros Hcookie Hsession. simpl.
  unfold Reg.read, post, Owner.read, secureContext in *.
  rewrite Hcookie. simpl. rewrite Hsession.
  destruct (cookies_user req) eqn:Hc; simpl; rewrite ?Hc; simpl;
    repeat split; reflexivity.
Qed.

(** X28.  The one call both handlers post is [get_vehicle_details] with one
    argument, the id of the route: a call that passes the count of arguments
    [Query] makes, whatever the id. *)
Theorem post_passes_the_count `{Platform} req config caller stub :
  ctorMsg (Reg.read req config).2
  = Normal (Obj [("function", Str "get_vehicle_details");
                 ("args", Arr [Str (params_v5cID req)])])
  ∧ ctorMsg (Owner.read req config).1.2 = ctorMsg (Reg.read req config).2
  ∧ (get_caller_data stub = (Ok caller, stub) →
     (Query "get_vehicle_details" [params_v5cID req] stub).1
     ≠ Err "QUERY: Incorrect number of arguments passed").
Proof.
  split; [done|]. split; [done|]. intros Hc. unfold Query, try. rewrite Hc.
  destruct caller as [user affiliation]. simpl.
  destruct (retrieve_product_cases (params_v5cID req) stub)
    as [[v ->]|[err ->]]; simpl.
  - rewrite get_vehicle_details_cases.
    destruct (if decide _ then _ else _); simpl; [done|].
    by destruct (json_Marshal_Product v).
  - unfold fail. simpl. rewrite !append_cons. discriminate.
Qed.

(** X29.  The owner handler answers 400, with the route id and
    [error: true], when the reply of the peer, an object without a property
    [hasOwnProperty] of its own, has a property [error] of its own or a
    status other than 200; the request error is not looked at and nothing is
    parsed.  A reply with a property [hasOwnProperty] of its own makes the
    handler throw a TypeError instead, whatever else it holds. *)
Theorem Owner_callback_refuses v5cID error response fields :
  (own fields "hasOwnProperty" = false →
   own fields "error" = true
   ∨ (∃ statusCode, response = Some statusCode ∧ statusCode ≠ 200) →
   Owner.callback JSON_parse v5cID error response (Obj fields)
   = Normal (mkSent 400
               (Obj [("message", Str "Unable to read owner.");
                     ("v5cID", Str v5cID); ("error", Bool true)])))
  ∧ (own fields "hasOwnProperty" = true →
     Owner.callback JSON_parse v5cID error response (Obj fields)
     = Throw "TypeError").
Proof.
  unfold Owner.callback. simpl. split.
  - intros -> [->|(statusCode & -> & Hne)]; [done|].
    apply Z.eqb_neq in Hne. rewrite Hne. by destruct (own fields "error").
  - by intros ->.
Qed.

(** X30.  The two handlers treat a failed read differently.  When [request]
    reports an error and passes no body, the reg handler answers 400 and the
    owner handler, which looks at the body first, throws a TypeError.  When
    the peer replies 200 with an object that has a property [error], no
    [result] and no property [hasOwnProperty] of its own, the owner handler
    answers 400 and the reg handler, which does not look for [error], throws
    a TypeError. *)
Theorem handlers_differ_on_failure v5cID error response fields :
  (truthy error = true →
   Owner.callback JSON_parse v5cID error response Undefined
   = Throw "TypeError"
   ∧ Reg.callback JSON_parse v5cID error response Undefined
     = Normal (unable "Unable to read reg" v5cID))
  ∧ (truthy error = false →
     own fields "hasOwnProperty" = false →
     own fields "error" = true →
     property fields "result" = Undefined →
     Owner.callback JSON_parse v5cID error (Some 200) (Obj fields)
     = Normal (unable "Unable to read owner." v5cID)
     ∧ Reg.callback JSON_parse v5cID error (Some 200) (Obj fields)
       = Throw "TypeError").
Proof.
  split.
  - intros Herr. unfold Owner.callback, Reg.callback. simpl.
    by rewrite Herr.
  - intros Herr Hmethod Hown Hres.
    unfold Owner.callback, Reg.callback, answer.
    simpl. by rewrite Herr, Hmethod, Hown, Hres.
Qed.

(** X11.  Neither handler answers anything but 200 or 400, and a 200 is
    answered only to a reply of status 200 (for the owner handler, a reply
    without a property [error] of its own; for the reg handler, a request
    without an error); its payload has the one property [message]. *)
Theorem callbacks_answer_200_or_400 v5cID error response body r :
  (Owner.callback JSON_parse v5cID error response body = Normal r →
   (r = unable "Unable to read owner." v5cID)
   ∨ (response = Some 200 ∧ hasOwnProperty body "error" = Normal false
      ∧ status r = 200 ∧ ∃ x, payload r = Obj [("message", x)]))
  ∧ (Reg.callback JSON_parse v5cID error response body = Normal r →
     (r = unable "Unable to read reg" v5cID)
     ∨ (response = Some 200 ∧ truthy error = false
        ∧ status r = 200 ∧ ∃ x, payload r = Obj [("message", x)])).
Proof.
  assert (∀ field, answer JSON_parse body field = Normal r →
                   status r = 200 ∧ ∃ x, payload r = Obj [("message", x)])
    as Hanswer.
  { intros field. unfold answer.
    destruct (get body "result") as [result|]; [|discriminate].
    destruct (get result "message") as [message|]; [|discriminate].
    destruct (JSON_parse message) as [vehicle|]; [|discriminate].
    destruct (get vehicle field) as [x|]; [|discriminate].
    intros [= <-]. simpl. eauto. }
  split.
  - unfold Owner.callback.
    destruct (hasOwnProperty body "error") as [[|]|]; simpl;
      [by intros [= <-]; left| |discriminate].
    destruct response as [statusCode|]; [|discriminate].
    destruct (Z.eqb_spec statusCode 200) as [->|_];
      [|by intros [= <-]; left].
    intros [? ?]%Hanswer. right. eauto.
  - unfold Reg.callback.
    destruct (truthy error); simpl; [by intros [= <-]; left|].
    destruct response as [statusCode|]; [|discriminate].
    destruct (Z.eqb_spec statusCode 200) as [->|_];
      [|by intros [= <-]; left].
    intros [? ?]%Hanswer. right. eauto.
Qed.
End RestHandlers.

(** ** The further properties on the stand-in platform *)

Section FurtherOnFixture.
Local Existing Instance Fixture.platform.

Lemma only_the_owner_changes_a_product_witness :
  Owner Fixture.registered = "DVLA" ∧ Scrapped Fixture.registered = false.
Proof.
  eapply (only_the_owner_changes_a_product
            (Manufacturer_to_buyer "DVLA" GOVERNMENT "Toyota" MANUFACTURER)
            Fixture.registered (Fixture.stocked "DVLA")).
  vm_compute. reflexivity.
Defined.

Lemma handlers_keep_the_description_witness :
  ∃ v', (retrieve_product "123456790"
           (run (Update_make "Toyota" MANUFACTURER "Toyota")
              Fixture.accredited (Fixture.fleet "Toyota")).2).1 = Ok v'
    ∧ VIN v' = VIN Fixture.accredited
    ∧ Manufacturer v' = Manufacturer Fixture.accredited.
Proof.
  destruct (@handlers_keep_the_description Fixture.platform
              unmarshal_marshal_product
              (Update_make "Toyota" MANUFACTURER "Toyota") Fixture.accredited
              (Fixture.fleet "Toyota") None
              (run (Update_make "Toyota" MANUFACTURER "Toyota")
                 Fixture.accredited (Fixture.fleet "Toyota")).2)
    as (v' & Hv' & Hfields).
  - vm_compute. reflexivity.
  - reflexivity.
  - exists v'. change (Product_Id Fixture.accredited) with "123456790" in Hv'.
    rewrite Hv'. split; [done|]. tauto.
Defined.

Lemma transfer_hands_over_witness :
  ∃ v', (retrieve_product "123456789"
           (run (Manufacturer_to_buyer "DVLA" GOVERNMENT "Toyota"
                   MANUFACTURER)
              Fixture.registered (Fixture.stocked "DVLA")).2).1 = Ok v'
    ∧ Owner v' = "Toyota".
Proof.
  destruct (@transfer_hands_over Fixture.platform unmarshal_marshal_product
              (Manufacturer_to_buyer "DVLA" GOVERNMENT "Toyota" MANUFACTURER)
              "Toyota" Fixture.registered (Fixture.stocked "DVLA") None
              (run (Manufacturer_to_buyer "DVLA" GOVERNMENT "Toyota"
                      MANUFACTURER)
                 Fixture.registered (Fixture.stocked "DVLA")).2)
    as (v' & Hv' & Hown & _).
  - reflexivity.
  - vm_compute. reflexivity.
  - reflexivity.
  - exists v'. change (Product_Id Fixture.registered) with "123456789" in Hv'.
    by rewrite Hv'.
Defined.

Lemma update_changes_one_field_witness :
  ∃ v', (retrieve_product "123456790"
           (run (Update_colour "Toyota" MANUFACTURER "red")
              Fixture.accredited (Fixture.fleet "Toyota")).2).1 = Ok v'
    ∧ Colour v' = "red" ∧ Owner v' = "Toyota".
Proof.
  destruct (@update_changes_one_field Fixture.platform
              unmarshal_marshal_product
              (Update_colour "Toyota" MANUFACTURER "red") Fixture.accredited
              (Fixture.fleet "Toyota") None
              (run (Update_colour "Toyota" MANUFACTURER "red")
                 Fixture.accredited (Fixture.fleet "Toyota")).2)
    as (v' & Hv' & Hown & _ & _ & Hcolour & _).
  - reflexivity.
  - discriminate.
  - vm_compute. reflexivity.
  - reflexivity.
  - exists v'. change (Product_Id Fixture.accredited) with "123456790" in Hv'.
    by rewrite Hv'.
Defined.

Lemma scrap_ends_the_lifecycle_witness :
  ∃ v', (retrieve_product "123456791"
           (run (Scrap_vehicle "Cray Bros" BUYER_BANK) Fixture.shipped
              (Fixture.yard "Cray Bros")).2).1 = Ok v'
    ∧ Scrapped v' = true ∧ Status v' = STATE_SHIPPING.
Proof.
  destruct (@scrap_ends_the_lifecycle Fixture.platform
              unmarshal_marshal_product "Cray Bros" BUYER_BANK Fixture.shipped
              (Fixture.yard "Cray Bros") None
              (run (Scrap_vehicle "Cray Bros" BUYER_BANK) Fixture.shipped
                 (Fixture.yard "Cray Bros")).2)
    as (v' & Hv' & Hscr & Hst & _).
  - vm_compute. reflexivity.
  - reflexivity.
  - exists v'. change (Product_Id Fixture.shipped) with "123456791" in Hv'.
    by rewrite Hv'.
Defined.

Lemma without_a_VIN_no_further_than_accreditive_witness :
  ∃ v', retrieve_product "123456789"
          (perform "123456789" delivery (Fixture.stocked "DVLA")).2
        = (Ok v', (perform "123456789" delivery (Fixture.stocked "DVLA")).2)
    ∧ VIN v' = 0 ∧ Status v' ≤ STATE_ACCREDITIVE.
Proof.
  apply (@without_a_VIN_no_further_than_accreditive Fixture.platform
           unmarshal_marshal_product "123456789" delivery Fixture.registered
           (Fixture.stocked "DVLA")).
  - vm_compute. reflexivity.
  - reflexivity.
  - vm_compute. discriminate.
  - vm_compute. reflexivity.
Defined.

Lemma four_statuses_are_reached_witness :
  ∃ v', retrieve_product "123456789"
          (perform "123456789" delivery (Fixture.stocked "DVLA")).2
        = (Ok v', (perform "123456789" delivery (Fixture.stocked "DVLA")).2)
    ∧ Status v' ∈ [STATE_SALESCONTRACT; STATE_ACCREDITIVE;
                   STATE_CHECK_ACCREDITIVE; STATE_SHIPPING].
Proof.
  apply (@four_statuses_are_reached Fixture.platform
           unmarshal_marshal_product "123456789" delivery Fixture.registered
           (Fixture.stocked "DVLA")).
  - vm_compute. reflexivity.
  - apply list_elem_of_here.
  - vm_compute. reflexivity.
Defined.

Lemma Query_counts_the_arguments_witness :
  Query "get_vehicle_details" ["123456789"; "123456790"]
    (Fixture.fleet "DVLA")
  = (Err "QUERY: Incorrect number of arguments passed", Fixture.fleet "DVLA").
Proof.
  apply (Query_counts_the_arguments ("DVLA", 1)).
  - vm_compute. reflexivity.
  - simpl. lia.
Defined.

Lemma Query_unknown_function_witness :
  Query "get_vehicle" ["123456789"] (Fixture.fleet "DVLA")
  = (Err "Received unknown function invocation", Fixture.fleet "DVLA").
Proof.
  apply (Query_unknown_function ("DVLA", 1)).
  - vm_compute. reflexivity.
  - discriminate.
  - discriminate.
Defined.

Lemma routers_need_the_caller_witness :
  Invoke 1 Fixture.unbound "create_product" ["Derby"]
    (Fixture.stub_of ∅ None)
  = (Err "Error retrieving caller information", Fixture.stub_of ∅ None)
  ∧ Query "create_product" ["Derby"] (Fixture.stub_of ∅ None)
    = (Err "QUERY: Error retrieving caller details", Fixture.stub_of ∅ None).
Proof.
  apply (routers_need_the_caller "Couldn't retrieve caller certificate").
  vm_compute. reflexivity.
Defined.

Lemma Invoke_short_of_arguments_witness :
  Invoke 1 Fixture.unbound "manufacturer_to_buyer" ["Toyota"]
    (Fixture.stocked "DVLA")
  = (Panic, Fixture.stocked "DVLA").
Proof.
  apply (Invoke_short_of_arguments ("DVLA", 1)).
  - vm_compute. reflexivity.
  - rewrite bool_decide_eq_false_2 by (intros [|]; discriminate).
    simpl. lia.
Defined.

Lemma Init_overlooks_the_first_put_witness :
  Init "init" ["peer"] Fixture.refusing_pids
  = (Ok None, with_put Fixture.refusing_pids "Peer_Address" "peer")
  ∧ state (Init "init" ["peer"] Fixture.refusing_pids).2 !! "pids"
    = state Fixture.refusing_pids !! "pids".
Proof.
  apply (Init_overlooks_the_first_put (Fixture.encode_ids [])); reflexivity.
Defined.

Lemma Init_without_arguments_witness :
  Init "init" [] (Fixture.stub_of ∅ (Some "DVLA"))
  = (Panic,
     with_put (Fixture.stub_of ∅ (Some "DVLA")) "pids" (Fixture.encode_ids [])).
Proof.
  apply (Init_without_arguments (Fixture.encode_ids [])); reflexivity.
Defined.

Lemma get_vehicles_after_Init_witness :
  get_vehicles "DVLA" GOVERNMENT
    (Init "init" ["peer"] (Fixture.stub_of ∅ (Some "DVLA"))).2
  = (Err "Corrupt V5C_Holder",
     (Init "init" ["peer"] (Fixture.stub_of ∅ (Some "DVLA"))).2).
Proof.
  apply (get_vehicles_after_Init "init" ["peer"]
           (Fixture.stub_of ∅ (Some "DVLA")) None).
  - reflexivity.
  - reflexivity.
  - reflexivity.
  - vm_compute. reflexivity.
Defined.
End FurtherOnFixture.

Section MoreOnFixture.
Local Existing Instance Fixture.platform.

Lemma save_then_retrieve_witness :
  retrieve_product "123456790"
    (save_changes Fixture.accredited Fixture.deployed).2
  = (Ok Fixture.accredited,
     (save_changes Fixture.accredited Fixture.deployed).2).
Proof.
  apply (@save_then_retrieve Fixture.platform Fixture.accredited
           Fixture.deployed true
           (save_changes Fixture.accredited Fixture.deployed).2
           unmarshal_marshal_product).
  - vm_compute. reflexivity.
  - reflexivity.
Defined.

Lemma retrieve_missing_record_witness :
  retrieve_product "123456789" Fixture.deployed
  = (Err "RETRIEVE_PRODUCT: Corrupt product record", Fixture.deployed).
Proof.
  apply (retrieve_missing_record "123456789" ("DVLA", 1) Fixture.deployed);
    reflexivity.
Defined.

Lemma get_caller_data_resolves_witness :
  get_caller_data (Fixture.stocked "Toyota")
  = (Ok ("Toyota", (Atoi "2").1), Fixture.stocked "Toyota").
Proof.
  apply (get_caller_data_resolves "Toyota" "Toyota" "peer"
           "Toyota\manufacturer\2" "Toyota\manufacturer\2"
           "Toyota\manufacturer\2" "Toyota\manufacturer\2"
           "Toyota\manufacturer\2" "2" (Fixture.stocked "Toyota"));
    reflexivity.
Defined.

Lemma createRandomId_nine_digits_witness :
  100000000 ≤ 123456790 ≤ 999999998.
Proof.
  eapply (createRandomId_nine_digits 2 (Fixture.allocating [123456789])).
  vm_compute. reflexivity.
Defined.

Lemma createRandomId_first_unused_witness :
  createRandomId 2 (Fixture.allocating [123456789])
  = (Ok (candidate (Fixture.allocating [123456789]) 1),
     with_draws (Fixture.allocating [123456789]) 2).
Proof.
  apply (createRandomId_first_unused 2 1 (Fixture.allocating [123456789])).
  - lia.
  - intros i Hi. assert (i = 0%nat) as -> by lia. by vm_compute.
  - by vm_compute.
Defined.

Lemma getAllUsedProductIds_room_witness :
  getAllUsedProductIds (Fixture.allocating [123456789])
  = (Ok ([(Atoi (Product_Id Fixture.registered)).1] ++ replicate 499 0)%list,
     Fixture.allocating [123456789]).
Proof.
  apply (getAllUsedProductIds_room [123456789] [Fixture.registered]
           (Fixture.allocating [123456789])).
  - reflexivity.
  - vm_compute. reflexivity.
  - repeat constructor; vm_compute; reflexivity.
Defined.

Lemma createRandomId_avoids_listed_products_witness :
  Forall (λ p, (Atoi (Product_Id p)).1 ≠ 123456790) [Fixture.registered].
Proof.
  eapply (createRandomId_avoids_listed_products [123456789]
            [Fixture.registered] 2 (Fixture.allocating [123456789])).
  - reflexivity.
  - vm_compute. reflexivity.
  - repeat constructor; vm_compute; reflexivity.
  - simpl. lia.
  - vm_compute. reflexivity.
Defined.

Lemma create_product_outside_the_test_witness :
  (create_product 1 "DVLA" "Beechvale" GOVERNMENT BUYER "Derby" 0 "EUR" "c"
     GOVERNMENT Fixture.indexed).1 = Ok None
  ∧ put_log (create_product 1 "DVLA" "Beechvale" GOVERNMENT BUYER "Derby" 0
               "EUR" "c" GOVERNMENT Fixture.indexed).2 = [].
Proof.
  destruct (create_product_outside_the_test 1 "DVLA" "Beechvale" GOVERNMENT
              BUYER "Derby" 0 "EUR" "c" GOVERNMENT Fixture.indexed 123456789
              (with_draws Fixture.indexed 1))
    as (-> & _ & Hlog).
  - vm_compute. reflexivity.
  - left. discriminate.
  - split; [reflexivity|exact Hlog].
Defined.

Lemma Invoke_changes_no_ledger_witness :
  same_ledger (Fixture.stocked "Toyota")
    (Invoke 1 Fixture.unbound "create_product" ["123456789"]
       (Fixture.stocked "Toyota")).2
  ∧ ∀ r, (Invoke 1 Fixture.unbound "create_product" ["123456789"]
            (Fixture.stocked "Toyota")).1 = Ok r →
         "create_product" = "create_product" ∧ r = None.
Proof.
  apply (Invoke_changes_no_ledger 1 Fixture.unbound "create_product"
           ["123456789"] (Fixture.stocked "Toyota")).
  intros productId caller1. reflexivity.
Defined.

Lemma create_product_never_creates_witness :
  create_product 1 "Toyota" "Beechvale" MANUFACTURER BUYER "Derby" 0 "EUR"
    "c" GOVERNMENT Fixture.indexed
  = (Err "Invalid JSON object", with_draws Fixture.indexed 1)
  ∧ state (with_draws Fixture.indexed 1) = state Fixture.indexed
  ∧ put_log (with_draws Fixture.indexed 1) = put_log Fixture.indexed.
Proof.
  apply (create_product_never_creates 1 "Toyota" "Beechvale" "Derby" 0 "EUR"
           "c" GOVERNMENT Fixture.indexed 123456789
           (with_draws Fixture.indexed 1)).
  - intros productId. reflexivity.
  - vm_compute. reflexivity.
Defined.

(** The call of the witness above is a manufacturer's, for a buyer: it is
    answered "Invalid JSON object". *)
Example Invoke_create_product :
  (Invoke 1 Fixture.unbound "create_product" ["123456789"]
     (Fixture.stocked "Toyota")).1 = Err "Invalid JSON object".
Proof. by vm_compute. Qed.

Lemma read_in_the_name_of_witness :
  Rest.secureContext
    (Rest.Reg.read
       (Rest.mkRequest "123456789" (Rest.Str "DVLA") (Rest.Str "Toyota"))
       (Rest.mkConfiguration (Rest.Str "vehicle") "localhost" "5000")).2
  = Rest.Normal (Rest.Str "DVLA")
  ∧ Rest.secureContext
      (Rest.Reg.read
         (Rest.mkRequest "123456790" Rest.Undefined (Rest.Str "DVLA"))
         (Rest.mkConfiguration (Rest.Str "vehicle") "localhost" "5000")).2
    = Rest.Normal (Rest.Str "DVLA").
Proof.
  destruct (read_in_the_name_of
              (Rest.mkRequest "123456789" (Rest.Str "DVLA") (Rest.Str "Toyota"))
              (Rest.mkConfiguration (Rest.Str "vehicle") "localhost" "5000")
              (Rest.mkRequest "123456790" Rest.Undefined (Rest.Str "DVLA"))
              (Rest.mkConfiguration (Rest.Str "vehicle") "localhost" "5000")
              eq_refl eq_refl)
    as (H1 & _ & _ & _ & H5).
  split; [exact H1|exact H5].
Defined.

Lemma Owner_callback_refuses_witness :
  Rest.Owner.callback Rest.parse_vehicle "123456789" Rest.Null (Some 200)
    (Rest.Obj [("error", Rest.Obj [("code", Rest.Num (-32003))])])
  = Rest.Normal (Rest.unable "Unable to read owner." "123456789")
  ∧ Rest.Owner.callback Rest.parse_vehicle "123456789" Rest.Null (Some 200)
      (Rest.Obj [("hasOwnProperty", Rest.Num 1);
                 ("error", Rest.Obj [("code", Rest.Num (-32003))])])
    = Rest.Throw "TypeError".
Proof.
  split.
  - apply (Owner_callback_refuses Rest.parse_vehicle "123456789" Rest.Null
             (Some 200) [("error", Rest.Obj [("code", Rest.Num (-32003))])]).
    + reflexivity.
    + left. reflexivity.
  - apply (Owner_callback_refuses Rest.parse_vehicle "123456789" Rest.Null
             (Some 200)
             [("hasOwnProperty", Rest.Num 1);
              ("error", Rest.Obj [("code", Rest.Num (-32003))])]).
    reflexivity.
Defined.

(** A reply of status 200 that carries the vehicle is answered with its
    owner, and its registration. *)
Example callbacks_answer :
  Rest.Owner.callback Rest.parse_vehicle "123456789" Rest.Null (Some 200)
    (Rest.Obj [("result",
                Rest.Obj [("status", Rest.Str "OK");
                          ("message", Rest.Str "vehicle")])])
  = Rest.Normal (Rest.mkSent 200 (Rest.Obj [("message", Rest.Str "DVLA")]))
  ∧ Rest.Reg.callback Rest.parse_vehicle "123456789" Rest.Null (Some 200)
      (Rest.Obj [("result",
                  Rest.Obj [("status", Rest.Str "OK");
                            ("message", Rest.Str "vehicle")])])
    = Rest.Normal
        (Rest.mkSent 200 (Rest.Obj [("message", Rest.Str "AB12 CDE")])).
Proof. split; reflexivity. Qed.
End MoreOnFixture.

Section RestOnFixture.

Lemma handlers_differ_on_failure_witness :
  (Rest.Owner.callback Rest.parse_vehicle "123456789"
     (Rest.Str "ECONNREFUSED") None Rest.Undefined
   = Rest.Throw "TypeError"
   ∧ Rest.Reg.callback Rest.parse_vehicle "123456789"
       (Rest.Str "ECONNREFUSED") None Rest.Undefined
     = Rest.Normal (Rest.unable "Unable to read reg" "123456789"))
  ∧ (Rest.Owner.callback Rest.parse_vehicle "123456789" Rest.Null (Some 200)
       (Rest.Obj [("error", Rest.Obj [("code", Rest.Num (-32003))])])
     = Rest.Normal (Rest.unable "Unable to read owner." "123456789")
     ∧ Rest.Reg.callback Rest.parse_vehicle "123456789" Rest.Null (Some 200)
         (Rest.Obj [("error", Rest.Obj [("code", Rest.Num (-32003))])])
       = Rest.Throw "TypeError").
Proof.
  split.
  - apply (handlers_differ_on_failure Rest.parse_vehicle "123456789"
             (Rest.Str "ECONNREFUSED") None []).
    reflexivity.
  - apply (handlers_differ_on_failure Rest.parse_vehicle "123456789"
             Rest.Null (Some 200)
             [("error", Rest.Obj [("code", Rest.Num (-32003))])]);
      reflexivity.
Defined.

Lemma callbacks_answer_200_or_400_witness :
  Rest.mkSent 200 (Rest.Obj [("message", Rest.Str "DVLA")])
  = Rest.unable "Unable to read owner." "123456789"
  ∨ (Some 200 = Some 200
     ∧ Rest.hasOwnProperty
         (Rest.Obj [("result", Rest.Obj [("message", Rest.Str "vehicle")])])
         "error" = Rest.Normal false
     ∧ Rest.status (Rest.mkSent 200 (Rest.Obj [("message", Rest.Str "DVLA")]))
       = 200
     ∧ ∃ x, Rest.payload
              (Rest.mkSent 200 (Rest.Obj [("message", Rest.Str "DVLA")]))
            = Rest.Obj [("message", x)]).
Proof.
  apply (callbacks_answer_200_or_400 Rest.parse_vehicle "123456789" Rest.Null
           (Some 200)
           (Rest.Obj [("result", Rest.Obj [("message", Rest.Str "vehicle")])])).
  reflexivity.
Defined.
End RestOnFixture.

Section PostOnFixture.
Local Existing Instance Fixture.platform.

Lemma post_passes_the_count_witness :
  (Query "get_vehicle_details" ["123456789"] (Fixture.fleet "DVLA")).1
  ≠ Err "QUERY: Incorrect number of arguments passed".
Proof.
  destruct (post_passes_the_count
              (Rest.mkRequest "123456789" Rest.Undefined (Rest.Str "DVLA"))
              (Rest.mkConfiguration (Rest.Str "vehicle") "localhost" "5000")
              ("DVLA", 1) (Fixture.fleet "DVLA"))
    as (_ & _ & Hcount).
  apply Hcount. vm_compute. reflexivity.
Defined.
End PostOnFixture.
